(** * code_checker.py: a shallow embedding of the plugin registry, the three
    plugins and the command-line front-end, with the properties of its
    specification.

    Python objects live in a heap of attribute dictionaries, so that reading
    an attribute that was never assigned raises [AttributeError] and a write
    to [self] would be visible.  The operating system (the executable search
    path, the file system, the external linters) is a record of oracles.
    Every call on the outside world and every [print] is logged in a trace. *)

From Stdlib Require Import ZArith Ascii String List Bool Lia.
From Stdlib Require Import Floats.SpecFloat.
From stdpp Require Import base option list strings gmap fin_maps pretty.

Open Scope string_scope.

(* ===================================================================== *)
(** * Text *)
(* ===================================================================== *)

Module Text.

(** The line feed of the f-string at lines 130-133. *)
Definition nl : string := String (ascii_of_nat 10) EmptyString.

(** [s.startswith(p)], returning what follows the prefix. *)
Fixpoint strip_prefix (p s : string) : option string :=
  match p, s with
  | EmptyString, _ => Some s
  | String a p', String b s' =>
      if Ascii.eqb a b then strip_prefix p' s' else None
  | String _ _, EmptyString => None
  end.

Definition startswith (s p : string) : bool :=
  match strip_prefix p s with Some _ => true | None => false end.

(** [s.endswith(p)]: some suffix of [s] is [p]. *)
Fixpoint endswith (s p : string) : bool :=
  if String.eqb s p then true
  else match s with
       | EmptyString => false
       | String _ s' => endswith s' p
       end.

(** [os.path.join(a, b)] of posixpath, for two components. *)
Definition os_path_join (a b : string) : string :=
  if startswith b "/" then b
  else if String.eqb a "" || endswith a "/" then a +:+ b
  else a +:+ "/" +:+ b.

End Text.

(* ===================================================================== *)
(** * The regular expression of line 111 *)
(* ===================================================================== *)

Module Regex.
Import Text.

(** The character class [[0-9\.]]. *)
Definition score_char (c : ascii) : bool :=
  let n := nat_of_ascii c in
  ((48 <=? n)%nat && (n <=? 57)%nat) || Ascii.eqb c ".".

Definition rated_prefix : string := "Your code has been rated at ".

(** [([0-9\.]+)/10] anchored at the head of [s]; the result is group 1.
    The quantifier is greedy: the run is extended first, and only when the
    rest of the pattern fails after the longer run does the matcher
    backtrack and close the group here. *)
Fixpoint rated_group (s : string) : option string :=
  match s with
  | EmptyString => None
  | String c s' =>
      if score_char c then
        match rated_group s' with
        | Some g => Some (String c g)
        | None => if startswith s' "/10" then Some (String c EmptyString)
                  else None
        end
      else None
  end.

(** The whole pattern anchored at the head of [s]. *)
Definition match_at (s : string) : option string :=
  match strip_prefix rated_prefix s with
  | Some r => rated_group r
  | None => None
  end.

(** [re.search(pattern, s)]: the match at the leftmost position that has
    one; [Some g] is a match object whose [group(1)] is [g]. *)
Fixpoint re_search (s : string) : option string :=
  match match_at s with
  | Some g => Some g
  | None => match s with
            | EmptyString => None
            | String _ s' => re_search s'
            end
  end.

(** The scores of all the rating lines of a text, leftmost first. *)
Fixpoint all_matches (s : string) : list string :=
  match match_at s with Some g => [g] | None => [] end
  ++ match s with
     | EmptyString => []
     | String _ s' => all_matches s'
     end.

(** A non-empty run of characters of the class. *)
Fixpoint all_score_chars (s : string) : bool :=
  match s with
  | EmptyString => true
  | String c s' => score_char c && all_score_chars s'
  end.

Definition is_score (s : string) : bool :=
  negb (String.eqb s "") && all_score_chars s.

(** The text holds the rating line with this score. *)
Definition contains_rating (text score : string) : Prop :=
  exists pre post,
    text = pre +:+ rated_prefix +:+ score +:+ "/10" +:+ post
    /\ is_score score = true.

(** The text holds the rating line with this score right after [pre]:
    a match of the pattern starts at the offset [length pre]. *)
Definition rating_at (text pre score : string) : Prop :=
  exists post,
    text = pre +:+ rated_prefix +:+ score +:+ "/10" +:+ post
    /\ is_score score = true.

End Regex.

(* ===================================================================== *)
(** * Python floats: IEEE 754 binary64 *)
(* ===================================================================== *)

Module PyFloat.

Definition float : Type := spec_float.

Definition prec : Z := 53.
Definition emax : Z := 1024.

Definition fadd : float -> float -> float := SFadd prec emax.
Definition fdiv : float -> float -> float := SFdiv prec emax.
(** [a < b], [a <= b], [a >= b]; every comparison with a NaN is false. *)
Definition flt : float -> float -> bool := SFltb.
Definition fle : float -> float -> bool := SFleb.
Definition fge (a b : float) : bool := SFleb b a.

(** [float(z)] of an [int], rounded to nearest even. *)
Definition of_Z (z : Z) : float := binary_normalize prec emax z 0 false.

(** The value [m / 10^k], rounded to nearest even: the division core of
    the binary64 quotient, run on the integers [m] and [10^k]. *)
Definition of_decimal (m : Z) (k : nat) : float :=
  match m with
  | Z0 => S754_zero false
  | Zpos _ =>
      let '(q, e, l) :=
        SFdiv_core_binary prec emax m 0 (10 ^ Z.of_nat k) 0 in
      binary_round_aux prec emax false q e l
  | Zneg _ => S754_nan
  end.

Definition digit_of (c : ascii) : option Z :=
  let n := nat_of_ascii c in
  if ((48 <=? n)%nat && (n <=? 57)%nat)%bool
  then Some (Z.of_nat n - 48)%Z else None.

(** The digits after the point: [m] is the number read so far, [k] the
    count of fractional digits read so far, [seen] whether any digit was
    read at all. *)
Fixpoint parse_frac (m : Z) (k : nat) (seen : bool) (s : string)
  : option float :=
  match s with
  | EmptyString => if seen then Some (of_decimal m k) else None
  | String c s' =>
      match digit_of c with
      | Some d => parse_frac (10 * m + d) (S k) true s'
      | None => None
      end
  end.

(** The digits before the point. *)
Fixpoint parse_int (m : Z) (seen : bool) (s : string) : option float :=
  match s with
  | EmptyString => if seen then Some (of_decimal m 0) else None
  | String c s' =>
      match digit_of c with
      | Some d => parse_int (10 * m + d) true s'
      | None =>
          if Ascii.eqb c "." then parse_frac m 0 seen s' else None
      end
  end.

(** [float(s)] for a text of digits and points, which is all that group 1
    of the pattern can hold: digits, at most one point, at least one
    digit.  [None] is the [ValueError] of a text that is no number
    (["."], ["1.2.3"]).  Signs, exponents, blanks, underscores and the
    names of the infinities, which [float] also reads, are outside the
    pattern's class and are not modelled: they give [None] here. *)
Definition of_string (s : string) : option float := parse_int 0 false s.

(** The literals of the source. *)
Definition f8_0 : float := of_decimal 80 1.
Definition f9_0 : float := of_decimal 90 1.
Definition fm1_0 : float := SFopp (of_decimal 10 1).

Definition is_zero (f : float) : bool :=
  match f with S754_zero _ => true | _ => false end.

(** [f < z], [f] a float and [z] an int: Python compares the exact values. *)
Definition lt_Z (f : float) (z : Z) : bool :=
  match f with
  | S754_nan => false
  | S754_infinity s => s
  | S754_zero _ => (0 <? z)%Z
  | S754_finite s m e =>
      let v := if s then Zneg m else Zpos m in
      match e with
      | Zneg p => (v <? z * 2 ^ Zpos p)%Z
      | _ => (v * 2 ^ e <? z)%Z
      end
  end.

End PyFloat.

(* ===================================================================== *)
(** * Python values, objects and the heap *)
(* ===================================================================== *)

Module Py.
Import PyFloat.

(** The classes of the module.  A registry entry is a [type], so any of
    them can be registered. *)
Inductive class := CodeChecker | PylintPlugin | Flake8Plugin | PyDocStylePlugin.

#[export] Instance class_eq_dec : EqDecision class.
Proof. solve_decision. Defined.

Definition class_name (c : class) : string :=
  match c with
  | CodeChecker => "CodeChecker"
  | PylintPlugin => "PylintPlugin"
  | Flake8Plugin => "Flake8Plugin"
  | PyDocStylePlugin => "PyDocStylePlugin"
  end.

(** The values that the attributes of these objects hold. *)
Inductive Val :=
| VNone
| VBool (b : bool)
| VInt (z : Z)
| VFloat (f : float)
| VStr (s : string)
| VDict (d : gmap string class).

Definition type_name (v : Val) : string :=
  match v with
  | VNone => "NoneType"
  | VBool _ => "bool"
  | VInt _ => "int"
  | VFloat _ => "float"
  | VStr _ => "str"
  | VDict _ => "dict"
  end.

(** Truth value testing, as [if v:] does it. *)
Definition truthy (v : Val) : bool :=
  match v with
  | VNone => false
  | VBool b => b
  | VInt z => negb (z =? 0)%Z
  | VFloat f => negb (is_zero f)
  | VStr s => negb (String.eqb s "")
  | VDict d => negb (bool_decide (d = ∅))
  end.

(** [isinstance(v, float)]. *)
Definition is_float (v : Val) : bool :=
  match v with VFloat _ => true | _ => false end.

Definition loc : Type := nat.

(** An instance: its class and its [__dict__]. *)
Record Obj := mkObj { obj_class : class; obj_dict : gmap string Val }.

(** Attributes defined in a class body rather than on the instance:
    line 14, [optional = None] in [CodeChecker]. *)
Definition class_attr (c : class) (name : string) : option Val :=
  match c with
  | CodeChecker => if String.eqb name "optional" then Some VNone else None
  | _ => None
  end.

(** An exception, by the class that an [except] clause tells it by and
    by its message: [ValueError] stands for an instance of [ValueError]
    or of a subclass of it ([UnicodeDecodeError]), [EnvironmentError] for
    one of [OSError], which is the same class, or of a subclass of it. *)
Inductive exn :=
| ValueError (msg : string)
| EnvironmentError (msg : string)
| TypeError (msg : string)
| AttributeError (cls attr : string)
| UnboundLocalError (var : string)
| ZeroDivisionError (msg : string)
(** the run left the part of Python that this model covers *)
| Unmodelled (what : string).

Record CompletedProcess :=
  mkProcess { returncode : Z; stdout : string; stderr : string }.

(** What the program does to the outside world, in order. *)
Inductive event :=
| Which (cmd : string)
| Isdir (path : string)
| Walk (top : string)
| Run (argv : list string)
| Print (text : string).

(** The interpreter and the operating system.  [which] is
    [shutil.which], [isdir] is [os.path.isdir], [walk] lists the triples
    that [os.walk] yields.  A call of [subprocess.run] is a function of
    its argument vector (each path is run once in a check): [run_error]
    is the exception that the call raises instead of returning, if any
    ([OSError], which is [EnvironmentError] under its older name, when
    the file that was found cannot be started; [ValueError] for a NUL
    in an argument; its subclass [UnicodeDecodeError] for output that
    does not decode), and [run] is what the call returns when it raises
    nothing.  [float_repr] is [repr] of a
    float, [float_sum] is the built-in [sum] over floats (a left fold of
    additions up to Python 3.11, compensated from 3.12 on): both are
    left open. *)
Record Env := mkEnv {
  which : string -> option string;
  isdir : string -> bool;
  walk : string -> list (string * list string * list string);
  run : list string -> CompletedProcess;
  run_error : list string -> option exn;
  float_repr : float -> string;
  float_sum : list float -> float;
}.

(** The argument vectors of the sub-processes of a trace, in order. *)
Fixpoint runs_of (tr : list event) : list (list string) :=
  match tr with
  | [] => []
  | Run argv :: tr' => argv :: runs_of tr'
  | _ :: tr' => runs_of tr'
  end.

(** The texts printed in a trace, in order. *)
Fixpoint prints_of (tr : list event) : list string :=
  match tr with
  | [] => []
  | Print text :: tr' => text :: prints_of tr'
  | _ :: tr' => prints_of tr'
  end.

Record State := mkState { heap : gmap loc Obj; trace : list event }.

Inductive outcome (A : Type) :=
| Ret (a : A)
| Raise (e : exn).
Arguments Ret {A} a.
Arguments Raise {A} e.

(** Computations: read the environment, thread the state, return or raise. *)
Definition M (A : Type) : Type := Env -> State -> outcome A * State.

Definition ret {A} (a : A) : M A := fun _ st => (Ret a, st).

Definition bind {A B} (m : M A) (k : A -> M B) : M B :=
  fun env st =>
    match m env st with
    | (Ret a, st') => k a env st'
    | (Raise e, st') => (Raise e, st')
    end.

Definition raise {A} (e : exn) : M A := fun _ st => (Raise e, st).

(** [try: m except (ValueError, EnvironmentError) as e: h e]. *)
Definition try_except {A} (m : M A) (catches : exn -> bool) (h : exn -> M A)
  : M A :=
  fun env st =>
    match m env st with
    | (Raise e, st') => if catches e then h e env st' else (Raise e, st')
    | r => r
    end.

Definition ask : M Env := fun env st => (Ret env, st).

Definition emit (e : event) : M unit :=
  fun _ st => (Ret tt, mkState (heap st) (trace st ++ [e])).

Definition when (b : bool) (m : M unit) : M unit :=
  if b then m else ret tt.

End Py.

Declare Scope py_scope.
Delimit Scope py_scope with py.
Notation "x <- m ;; k" := (Py.bind m (fun x => k))
  (at level 100, m at next level, right associativity) : py_scope.
Notation "m ;;; k" := (Py.bind m (fun _ => k))
  (at level 100, right associativity) : py_scope.

(* ===================================================================== *)
(** * Built-ins: attributes, allocation, printing, the system calls *)
(* ===================================================================== *)

Module Builtins.
Import Py PyFloat.
Open Scope py_scope.

(** [obj.name]: the instance dictionary first, then the class. *)
Definition getattr (l : loc) (name : string) : M Val :=
  fun _ st =>
    match heap st !! l with
    | Some o =>
        match obj_dict o !! name with
        | Some v => (Ret v, st)
        | None =>
            match class_attr (obj_class o) name with
            | Some v => (Ret v, st)
            | None =>
                (Raise (AttributeError (class_name (obj_class o)) name), st)
            end
        end
    | None => (Raise (Unmodelled "dangling reference"), st)
    end.

(** [obj.name = v]. *)
Definition setattr (l : loc) (name : string) (v : Val) : M unit :=
  fun _ st =>
    match heap st !! l with
    | Some o =>
        (Ret tt,
         mkState (<[l := mkObj (obj_class o) (<[name := v]> (obj_dict o))]>
                    (heap st))
                 (trace st))
    | None => (Raise (Unmodelled "dangling reference"), st)
    end.

(** A new instance with an empty dictionary, before [__init__] runs. *)
Definition alloc (c : class) : M loc :=
  fun _ st =>
    let l := fresh (dom (heap st)) in
    (Ret l, mkState (<[l := mkObj c ∅]> (heap st)) (trace st)).

Definition class_of (l : loc) : M class :=
  fun _ st =>
    match heap st !! l with
    | Some o => (Ret (obj_class o), st)
    | None => (Raise (Unmodelled "dangling reference"), st)
    end.

Definition print (text : string) : M unit := emit (Print text).

Definition shutil_which (cmd : string) : M (option string) :=
  env <- ask;; emit (Which cmd);;; ret (which env cmd).

(** The truth value of what [shutil.which] returns. *)
Definition found (p : option string) : bool :=
  match p with
  | Some s => negb (String.eqb s "")
  | None => false
  end.

Definition os_path_isdir (path : string) : M bool :=
  env <- ask;; emit (Isdir path);;; ret (isdir env path).

Definition os_walk (top : string)
  : M (list (string * list string * list string)) :=
  env <- ask;; emit (Walk top);;; ret (walk env top).

(** [subprocess.run(argv, capture_output=True, text=True)]: the call is
    logged, then it raises or returns the completed process. *)
Definition subprocess_run (argv : list string) : M CompletedProcess :=
  env <- ask;;
  emit (Run argv);;;
  match run_error env argv with
  | Some e => raise e
  | None => ret (run env argv)
  end.

(** [float(s)] on a text. *)
Definition float_of_str (s : string) : M float :=
  match of_string s with
  | Some f => ret f
  | None =>
      raise (ValueError ("could not convert string to float: '" +:+ s +:+ "'"))
  end.

(** [float(v)] where [isinstance(v, float)] holds: the value itself.  The
    source calls it under that guard only. *)
Definition float_of_val (v : Val) : M float :=
  match v with
  | VFloat f => ret f
  | _ => raise (Unmodelled "float() of a value that is no float")
  end.

(** [f < v] together with [str(v)], for the values that order against a
    float; the others raise. *)
Definition lt_with_str (f : float) (v : Val) : M (bool * string) :=
  match v with
  | VFloat g => env <- ask;; ret (flt f g, float_repr env g)
  | VInt z => ret (lt_Z f z, pretty z)
  | VBool b => ret (lt_Z f (Z.b2z b), if b then "True" else "False")
  | _ => raise (TypeError ("'<' not supported between instances of 'float' and '"
                           +:+ type_name v +:+ "'"))
  end.

(** [for x in xs: body], with a [return] inside the body: [inr v] leaves
    the function with [v], [inl acc] goes on with the locals [acc]. *)
Fixpoint for_each {A L R} (body : A -> L -> M (L + R)) (xs : list A) (acc : L)
  : M (L + R) :=
  match xs with
  | [] => ret (inl acc)
  | x :: xs' =>
      r <- body x acc;;
      match r with
      | inl acc' => for_each body xs' acc'
      | inr v => ret (inr v)
      end
  end.

(** [map(f, xs)] consumed in order, stopping at the first exception. *)
Fixpoint map_M {A B} (f : A -> M B) (xs : list A) : M (list B) :=
  match xs with
  | [] => ret []
  | x :: xs' => y <- f x;; ys <- map_M f xs';; ret (y :: ys)
  end.

End Builtins.

(* ===================================================================== *)
(** * The program *)
(* ===================================================================== *)

Module CodeCheckerPy.
Import Py PyFloat Text Regex Builtins.
Open Scope py_scope.

(** ** class CodeChecker *)

(** [CodeChecker.__init__(self, verbose, optional)], lines 16-25. *)
Definition CodeChecker_init (self : loc) (verbose optional : Val) : M unit :=
  setattr self "plugins" (VDict ∅);;;
  setattr self "verbose" verbose;;;
  setattr self "optional" optional.

(** [self.plugins] as the dictionary it is. *)
Definition get_plugins (self : loc) : M (gmap string class) :=
  v <- getattr self "plugins";;
  match v with
  | VDict d => ret d
  | _ => raise (Unmodelled "self.plugins is not a dict")
  end.

(** [register_plugin], lines 27-34: [self.plugins[name] = plugin_module]. *)
Definition register_plugin (self : loc) (name : string) (plugin_module : class)
  : M unit :=
  d <- get_plugins self;;
  setattr self "plugins" (VDict (<[name := plugin_module]> d)).

(** ** class PylintPlugin *)

(** [PylintPlugin.__init__(self, verbose)], lines 55-62. *)
Definition PylintPlugin_init (self : loc) (verbose : Val) : M unit :=
  setattr self "verbose" verbose;;;
  setattr self "scorelimit" (VFloat fm1_0).

(** The files that the two loops of lines 73-76 collect from a walk. *)
Definition py_files_of_walk (w : list (string * list string * list string))
  : list string :=
  flat_map
    (fun '(root, _, files) =>
       map (os_path_join root)
           (List.filter (fun file => endswith file ".py") files))
    w.

(** [get_source_files], lines 64-80. *)
Definition get_source_files (self : loc) (source : string) : M (list string) :=
  d <- os_path_isdir source;;
  if d then
    w <- os_walk source;;
    ret (py_files_of_walk w)
  else
    ret [source].

(** The list that [get_source_files] returns in the environment [env]. *)
Definition source_files_of (env : Env) (source : string) : list string :=
  if isdir env source then py_files_of_walk (walk env source) else [source].

(** The locals of [check] that the loop updates. *)
Record Locals := mkLocals {
  scores : list string;
  score_at_least_eight : Z;
  score_at_least_nine : Z;
  result : option CompletedProcess;  (* [None]: not bound yet *)
}.

Definition no_score : string := "Score not found".

(** What the loop does with the outcome [res] of one pylint run, lines
    106-127. *)
Definition report_score (self : loc) (filename : string) (lv : Locals)
  (res : CompletedProcess) : M (Locals + option string) :=
  verbose <- getattr self "verbose";;
  when (truthy verbose) (print (stdout res);;; print (stderr res));;;
  let score_match := re_search (stdout res) in
  let score := match score_match with Some g => g | None => no_score end in
  let lv := mkLocals (scores lv) (score_at_least_eight lv)
                     (score_at_least_nine lv) (Some res) in
  if negb (String.eqb score no_score) then
    opt <- getattr self "optional";;
    if truthy opt && is_float opt then
      (* only report scores less than the given number *)
      f <- float_of_str score;;
      opt' <- getattr self "optional";;
      t <- float_of_val opt';;
      when (fle f t) (print (filename +:+ ": " +:+ score));;;
      ret (inl lv)
    else
      (* normal processing *)
      print (filename +:+ ": " +:+ score);;;
      f8 <- float_of_str score;;
      let eight := if fge f8 f8_0 then (score_at_least_eight lv + 1)%Z
                   else score_at_least_eight lv in
      f9 <- float_of_str score;;
      let nine := if fge f9 f9_0 then (score_at_least_nine lv + 1)%Z
                  else score_at_least_nine lv in
      f <- float_of_str score;;
      limit <- getattr self "scorelimit";;
      cmp <- lt_with_str f limit;;
      let '(below, limit_str) := cmp in
      if (below : bool) then
        print ("Pylint check failed since " +:+ filename
               +:+ " has a score of " +:+ score
               +:+ " which is less than " +:+ limit_str);;;
        ret (inr None)
      else
        ret (inl (mkLocals (scores lv ++ [score]) eight nine (result lv)))
  else
    ret (inl lv).

(** The body of the loop, lines 105-127. *)
Definition check_file (self : loc) (filename : string) (lv : Locals)
  : M (Locals + option string) :=
  res <- subprocess_run ["pylint"; filename];;
  report_score self filename lv res.

Definition summary_message (env : Env) (average : float) (eight nine : Z)
  (processed : nat) : string :=
  "Average pylint score: " +:+ float_repr env average +:+ nl
  +:+ "Number of files with a score of at least 8.0: " +:+ pretty eight +:+ nl
  +:+ "Number of files with a score of at least 9.0: " +:+ pretty nine +:+ nl
  +:+ "Number of files processed: " +:+ pretty processed.

(** After the loop, lines 129-136. *)
Definition check_finish (lv : Locals) : M (option string) :=
  if negb (bool_decide (scores lv = [])) then
    fs <- map_M float_of_str (scores lv);;
    env <- ask;;
    let n := length (scores lv) in
    if bool_decide (n = 0%nat) then
      raise (ZeroDivisionError "float division by zero")
    else
      let average := fdiv (float_sum env fs) (of_Z (Z.of_nat n)) in
      ret (Some (summary_message env average (score_at_least_eight lv)
                   (score_at_least_nine lv) n))
  else
    match result lv with
    | Some res => ret (Some (stdout res))
    | None => raise (UnboundLocalError "result")
    end.

(** [PylintPlugin.check], lines 82-136.  The result is an
    [Optional[str]]: [None] is Python's [None]. *)
Definition PylintPlugin_check (self : loc) (source : string)
  : M (option string) :=
  p <- shutil_which "pylint";;
  if negb (found p) then
    raise (EnvironmentError "pylint is not available in the system's PATH")
  else
    verbose <- getattr self "verbose";;
    when (truthy verbose) (print ("Running pylint checks on " +:+ source +:+ "..."));;;
    source_files <- get_source_files self source;;
    r <- for_each (check_file self) source_files (mkLocals [] 0 0 None);;
    match r with
    | inr v => ret v
    | inl lv => check_finish lv
    end.

(** ** class Flake8Plugin *)

(** [Flake8Plugin.__init__(self, verbose)], lines 142-148. *)
Definition Flake8Plugin_init (self : loc) (verbose : Val) : M unit :=
  setattr self "verbose" verbose.

(** The body shared, word for word, by [Flake8Plugin.check] (lines
    158-169) and [PyDocStylePlugin.check] (lines 192-203), for the
    executable [tool]. *)
Definition passthrough_check (tool : string) (self : loc) (source : string)
  : M (option string) :=
  p <- shutil_which tool;;
  if negb (found p) then
    raise (EnvironmentError (tool +:+ " is not available in the system's PATH"))
  else
    verbose <- getattr self "verbose";;
    when (truthy verbose)
         (print ("Running " +:+ tool +:+ " checks on " +:+ source +:+ "..."));;;
    res <- subprocess_run [tool; source];;
    verbose <- getattr self "verbose";;
    when (truthy verbose) (print (stdout res);;; print (stderr res));;;
    verbose <- getattr self "verbose";;
    ret (if negb (truthy verbose) then Some (stdout res) else None).

(** [Flake8Plugin.check(self, source)], lines 150-169. *)
Definition Flake8Plugin_check (self : loc) (source : string)
  : M (option string) :=
  passthrough_check "flake8" self source.

(** ** class PyDocStylePlugin *)

(** [PyDocStylePlugin.__init__(self, verbose)], lines 175-181. *)
Definition PyDocStylePlugin_init (self : loc) (verbose : Val) : M unit :=
  setattr self "verbose" verbose.

(** [PyDocStylePlugin.check(self, source, optional)], lines 183-203: two
    parameters after [self]; the second is never read. *)
Definition PyDocStylePlugin_check (self : loc) (source : string) (optional : Val)
  : M (option string) :=
  passthrough_check "pydocstyle" self source.

(** ** Calls through a class or an instance *)

(** [cls(verbose)]: a new instance, then [__init__] with that single
    positional argument. *)
Definition construct (cls : class) (verbose : Val) : M loc :=
  l <- alloc cls;;
  match cls with
  | CodeChecker => CodeChecker_init l verbose VNone
  | PylintPlugin => PylintPlugin_init l verbose
  | Flake8Plugin => Flake8Plugin_init l verbose
  | PyDocStylePlugin => PyDocStylePlugin_init l verbose
  end;;;
  ret l.

(** The instance dictionary that [cls(verbose)] leaves behind. *)
Definition init_dict (cls : class) (verbose : Val) : gmap string Val :=
  match cls with
  | CodeChecker =>
      <["optional" := VNone]>
        (<["verbose" := verbose]> (<["plugins" := VDict ∅]> ∅))
  | PylintPlugin =>
      <["scorelimit" := VFloat fm1_0]> (<["verbose" := verbose]> ∅)
  | Flake8Plugin | PyDocStylePlugin => <["verbose" := verbose]> ∅
  end.

(** [plugin.check(source)]: the method [check] of the instance's class,
    bound to one positional argument.  [PyDocStylePlugin.check] requires
    two, so the call fails while the arguments are bound, before the body
    runs; [CodeChecker] has no such method. *)
Definition call_check (plugin : loc) (source : string) : M (option string) :=
  cls <- class_of plugin;;
  match cls with
  | PylintPlugin => PylintPlugin_check plugin source
  | Flake8Plugin => Flake8Plugin_check plugin source
  | PyDocStylePlugin =>
      raise (TypeError "PyDocStylePlugin.check() missing 1 required positional argument: 'optional'")
  | CodeChecker => raise (AttributeError "CodeChecker" "check")
  end.

(** [run_check], lines 36-49. *)
Definition run_check (self : loc) (source checker : string)
  : M (option string) :=
  d <- get_plugins self;;
  match d !! checker with
  | Some cls =>                       (* [checker in self.plugins] *)
      verbose <- getattr self "verbose";;
      plugin <- construct cls verbose;;
      call_check plugin source
  | None =>
      raise (ValueError ("Checker '" +:+ checker +:+ "' is not registered."))
  end.

(** ** main *)

(** What [argparse] hands over. *)
Record Args := mkArgs {
  tool : string;
  verbose : bool;
  source : string;
  scores_less_than : option string;
}.

Definition caught_by_main (e : exn) : bool :=
  match e with
  | ValueError _ | EnvironmentError _ => true
  | _ => false
  end.

(** [str(e)]. *)
Definition exn_message (e : exn) : string :=
  match e with
  | ValueError m | EnvironmentError m | TypeError m | ZeroDivisionError m => m
  | AttributeError c a => "'" +:+ c +:+ "' object has no attribute '" +:+ a +:+ "'"
  | UnboundLocalError v =>
      "cannot access local variable '" +:+ v
      +:+ "' where it is not associated with a value"
  | Unmodelled w => w
  end.

(** Lines 221-224: the checker and the three registrations. *)
Definition cli_checker (args : Args) : M loc :=
  code_checker <- alloc CodeChecker;;
  CodeChecker_init code_checker (VBool (verbose args))
    (match scores_less_than args with Some s => VStr s | None => VNone end);;;
  register_plugin code_checker "pylint" PylintPlugin;;;
  register_plugin code_checker "flake8" Flake8Plugin;;;
  register_plugin code_checker "pydocstyle" PyDocStylePlugin;;;
  ret code_checker.

(** [main], lines 206-233, after the arguments are parsed. *)
Definition main (args : Args) : M unit :=
  code_checker <- cli_checker args;;
  r <- try_except
         (out <- run_check code_checker (source args) (tool args);;
          ret (Some out))
         caught_by_main
         (fun e => print ("Error: " +:+ exn_message e);;; ret None);;
  match r with
  | Some (Some out) =>                (* the [else:] of the [try] *)
      when (negb (String.eqb out "")) (print out)
  | _ => ret tt
  end.

(** The state before anything ran. *)
Definition initial : State := mkState ∅ [].

End CodeCheckerPy.

(* ===================================================================== *)
(** * Sample inputs *)
(* ===================================================================== *)

Module Samples.
Import Py PyFloat Text Regex Builtins CodeCheckerPy.

(** What pylint prints for a small module. *)
Definition pylint_report : string :=
  "************* Module demo" +:+ nl
  +:+ "demo.py:1:0: C0114: Missing module docstring (missing-module-docstring)"
  +:+ nl +:+ nl
  +:+ "------------------------------------------------------------------" +:+ nl
  +:+ "Your code has been rated at 8.43/10 (previous run: 7.50/10, +0.93)" +:+ nl.

(** The rating line that pylint ends its report with. *)
Definition rated (score : string) : string :=
  rated_prefix +:+ score +:+ "/10" +:+ nl.

(** [sum] as Python up to 3.11 computes it: additions from the left. *)
Definition plain_sum (fs : list float) : float :=
  fold_left fadd fs (S754_zero false).

(** An exact rendering of a float, mantissa and binary exponent; it stands
    in for [repr], whose shortest decimal text is not computed here. *)
Definition show_float (f : float) : string :=
  match f with
  | S754_zero s => if s then "-0.0" else "0.0"
  | S754_infinity s => if s then "-inf" else "inf"
  | S754_nan => "nan"
  | S754_finite s m e =>
      (if s then "-" else "") +:+ pretty (Zpos m) +:+ "p" +:+ pretty e
  end.

Fixpoint report_of (reports : list (string * string)) (path : string)
  : option string :=
  match reports with
  | [] => None
  | (p, out) :: rest => if String.eqb p path then Some out else report_of rest path
  end.

(** A machine with all three linters installed and one directory [top],
    whose files are [names]; running a linter on [path] prints what
    [reports] lists for it, and nothing for any other path; every run
    returns. *)
Definition machine (top : string) (names : list string)
  (reports : list (string * string)) : Env :=
  mkEnv
    (fun cmd => Some ("/usr/bin/" +:+ cmd))
    (fun path => String.eqb path top)
    (fun path => if String.eqb path top then [(top, [], names)] else [])
    (fun argv =>
       match argv with
       | [_; path] =>
           match report_of reports path with
           | Some out => mkProcess 0 out ""
           | None => mkProcess 0 "" ""
           end
       | _ => mkProcess 2 "" "usage"
       end)
    (fun _ => None)
    show_float
    plain_sum.

(** A machine with no linter on the search path and no directory; no
    command can be started on it. *)
Definition bare_machine : Env :=
  mkEnv (fun _ => None) (fun _ => false) (fun _ => [])
        (fun _ => mkProcess 127 "" "")
        (fun _ => Some (EnvironmentError "[Errno 2] No such file or directory"))
        show_float plain_sum.

(** Three modules rated 9.1, 8.2 and 7.9. *)
Definition three_rated : Env :=
  machine "proj" ["a.py"; "notes.txt"; "b.py"; "c.py"]
    [("proj/a.py", rated "9.1"); ("proj/b.py", rated "8.2");
     ("proj/c.py", rated "7.9")].

(** Three modules rated 5.0, 8.0 and 7.0. *)
Definition three_mixed : Env :=
  machine "proj" ["a.py"; "b.py"; "c.py"]
    [("proj/a.py", rated "5.0"); ("proj/b.py", rated "8.0");
     ("proj/c.py", rated "7.0")].

(** Three modules, the second one rated 5.5. *)
Definition one_poor : Env :=
  machine "proj" ["a.py"; "b.py"; "c.py"]
    [("proj/a.py", rated "7.0"); ("proj/b.py", rated "5.5");
     ("proj/c.py", rated "9.0")].

(** A directory without a single [.py] file. *)
Definition no_sources : Env :=
  machine "docs" ["README.md"; "index.rst"] [].

(** Two modules on which pylint prints no rating line. *)
Definition two_unrated : Env :=
  machine "proj" ["a.py"; "b.py"]
    [("proj/a.py", "a.py:1:1: E0001: Parsing failed (syntax-error)");
     ("proj/b.py", "b.py:3:1: E0001: Parsing failed (syntax-error)")].

(** A [CodeChecker(verbose, optional)] with [PylintPlugin] registered
    under ["pylint"], built on the empty heap; it is object [0]. *)
Definition with_pylint (verbose optional : Val) : State :=
  ((code_checker <- alloc CodeChecker;;
    CodeChecker_init code_checker verbose optional;;;
    register_plugin code_checker "pylint" PylintPlugin)%py
     bare_machine initial).2.

(** The [CodeChecker] of [with_pylint verbose optional], as an object. *)
Definition checker_object (verbose optional : Val) : Obj :=
  mkObj CodeChecker
    (<["plugins" := VDict (<["pylint" := PylintPlugin]> ∅)]>
       (<["optional" := optional]>
          (<["verbose" := verbose]> ∅))).

(** The state in which [run_check], started in [st] on object [0] with
    the checker ["pylint"], calls [check]: the new plugin instance is
    there, nothing has been logged yet. *)
Definition plugin_instance_after (st : State) : State :=
  ((verbose <- getattr 0%nat "verbose";;
    construct PylintPlugin verbose)%py bare_machine st).2.

(** A [PylintPlugin(verbose)] on the empty heap, object [0], with
    [scorelimit] then set to [limit] and, when [optional] is given,
    the attribute [optional] set to it. *)
Definition pylint_instance (verbose limit : Val) (optional : option Val) : State :=
  ((plugin <- construct PylintPlugin verbose;;
    setattr plugin "scorelimit" limit;;;
    match optional with
    | Some v => setattr plugin "optional" v
    | None => ret tt
    end)%py bare_machine initial).2.


(** A machine on which the style tools report one finding for [proj]. *)
Definition style_machine : Env :=
  machine "proj" ["a.py"]
    [("proj", "proj/a.py:1:1: E302 expected 2 blank lines, found 1")].


(** A single file on which pylint prints no rating line. *)
Definition lone_unrated : Env :=
  machine "proj" [] [("setup.cfg", "setup.cfg:1:1: E0001: Parsing failed")].

Definition f6_0 : float := of_decimal 60 1.
Definition f7_5 : float := of_decimal 75 1.

End Samples.

(* ===================================================================== *)
(** * Further calls and inputs *)
(* ===================================================================== *)

Module Calls.
Import Py PyFloat Text Regex Builtins CodeCheckerPy Samples.
Open Scope py_scope.

(** [CodeChecker(verbose, optional)]: a new instance, then [__init__]
    with both arguments, as [main] calls it on line 221. *)
Definition CodeChecker_new (verbose optional : Val) : M loc :=
  code_checker <- alloc CodeChecker;;
  CodeChecker_init code_checker verbose optional;;;
  ret code_checker.

(** The registry that the three registrations of [main] build. *)
Definition cli_registry : gmap string class :=
  <["pydocstyle" := PyDocStylePlugin]>
    (<["flake8" := Flake8Plugin]> (<["pylint" := PylintPlugin]> ∅)).

(** The command that [check] runs for a file. *)
Definition pylint_on (filename : string) : list string := ["pylint"; filename].

(** The float is no negative number: a NaN, or a zero, a finite number
    or an infinity whose sign bit is clear. *)
Definition sign_clear (x : float) : bool :=
  match x with
  | S754_nan => true
  | S754_zero s | S754_infinity s | S754_finite s _ _ => negb s
  end.

(** Pylint's output for the file holds a rating line whose score [float]
    reads as a number below [limit]. *)
Definition below_floor (env : Env) (limit : float) (filename : string) : Prop :=
  exists g x,
    re_search (stdout (run env (pylint_on filename))) = Some g
    /\ of_string g = Some x /\ flt x limit = true.

(** The character does not occur in the text. *)
Fixpoint lacks (c : ascii) (s : string) : bool :=
  match s with
  | EmptyString => true
  | String d s' => negb (Ascii.eqb c d) && lacks c s'
  end.


(** What an older pylint prints for a module it rates below zero. *)
Definition negative_report : string :=
  "************* Module demo" +:+ nl
  +:+ "demo.py:1:0: E0602: Undefined variable 'x' (undefined-variable)" +:+ nl
  +:+ rated_prefix +:+ "-2.50/10" +:+ nl.

(** An output with two rating lines, the second one rating the code at
    8.43. *)
Definition two_ratings : string :=
  rated "0.00" +:+ rated "8.43".



End Calls.

(* ===================================================================== *)
(** * Notions used in the statements *)
(* ===================================================================== *)

Module Reasoning.
Import Py.

(** The state [st] after the events [es] were logged. *)
Definition log (st : State) (es : list event) : State :=
  mkState (heap st) (trace st ++ es).

(** Every run of [m] takes a state to one that is [R]-related to it,
    whether it returns or raises. *)
Definition preserves (R : State -> State -> Prop) {A} (m : M A) : Prop :=
  forall env st, R st (m env st).2.

Definition same_heap (st st' : State) : Prop := heap st' = heap st.

Definition same_runs (st st' : State) : Prop :=
  runs_of (trace st') = runs_of (trace st).

(** ** The loop of the quality scorer, read off the source *)

Import PyFloat Regex CodeCheckerPy.

(** [subprocess.run] returns for this argument vector: it raises
    nothing. *)
Definition returns (env : Env) (argv : list string) : Prop :=
  run_error env argv = None.

(** The run of pylint on the file returns. *)
Definition linted (env : Env) (filename : string) : Prop :=
  returns env ["pylint"; filename].

(** Group 1 of the rating line in pylint's output for a file, if any. *)
Definition rating (env : Env) (filename : string) : option string :=
  re_search (stdout (run env ["pylint"; filename])).

(** Pylint's output for the file holds no rating line. *)
Definition unrated (env : Env) (filename : string) : Prop :=
  rating env filename = None.

(** What [check] logs for a file on which no rating line is found, on an
    instance whose [verbose] is [v]: the sub-process, and its two streams
    when verbose. *)
Definition unrated_events (env : Env) (v : Val) (filename : string)
  : list event :=
  let res := run env ["pylint"; filename] in
  Run ["pylint"; filename]
  :: (if truthy v then [Print (stdout res); Print (stderr res)] else []).

(** The value of the local [result] after the loop went through [files],
    when it was [r] before. *)
Definition last_result (env : Env) (files : list string)
  (r : option CompletedProcess) : option CompletedProcess :=
  fold_left (fun _ f => Some (run env ["pylint"; f])) files r.









End Reasoning.

(* ===================================================================== *)
(** * The score pattern finds the rating line *)
(* ===================================================================== *)

Module RegexFacts.
Import Text Regex Samples Calls.

Lemma app_nil (s : string) : "" +:+ s = s.
Proof. reflexivity. Qed.

Lemma app_cons (c : ascii) (a b : string) :
  String c a +:+ b = String c (a +:+ b).
Proof. reflexivity. Qed.

Lemma strip_prefix_app (p s : string) : strip_prefix p (p +:+ s) = Some s.
Proof.
  induction p as [|a p IH]; [reflexivity |].
  rewrite app_cons. simpl. now rewrite Ascii.eqb_refl.
Qed.

Lemma strip_prefix_inv (p s r : string) :
  strip_prefix p s = Some r -> s = p +:+ r.
Proof.
  revert s; induction p as [|a p IH]; intros s H; simpl in *.
  - rewrite app_nil. congruence.
  - destruct s as [|b s]; [discriminate |].
    destruct (Ascii.eqb a b) eqn:E; [| discriminate].
    apply Ascii.eqb_eq in E; subst b. rewrite app_cons. f_equal. now apply IH.
Qed.

Lemma startswith_inv (s p : string) :
  startswith s p = true -> exists r, s = p +:+ r.
Proof.
  unfold startswith. destruct (strip_prefix p s) eqn:E; [| discriminate].
  intros _. exists s0. now apply strip_prefix_inv.
Qed.

(** After the whole run of score characters the group closes before
    ["/10"]. *)
Lemma rated_group_complete (score post : string) :
  is_score score = true ->
  rated_group (score +:+ "/10" +:+ post) = Some score.
Proof.
  unfold is_score. induction score as [|c s IH]; [discriminate |].
  simpl. intros H. apply andb_prop in H as [Hc Hs]. rewrite Hc.
  destruct s as [|d s'].
  - reflexivity.
  - rewrite IH; [reflexivity |]. exact Hs.
Qed.

(** What the group matched is a score, and ["/10"] follows it. *)
Lemma rated_group_sound (s g : string) :
  rated_group s = Some g ->
  exists post, s = g +:+ "/10" +:+ post /\ is_score g = true.
Proof.
  revert g; induction s as [|c s IH]; intros g H; [discriminate |].
  simpl in H. destruct (score_char c) eqn:Hc; [| discriminate].
  destruct (rated_group s) as [g'|] eqn:Hg.
  - injection H as <-. destruct (IH g' eq_refl) as (post & -> & Hs).
    exists post. split; [reflexivity |].
    unfold is_score in *. simpl. rewrite Hc.
    apply andb_prop in Hs as [_ Hs]. exact Hs.
  - destruct (startswith s "/10") eqn:Hp; [| discriminate].
    injection H as <-. apply startswith_inv in Hp as [post ->].
    exists post. split; [reflexivity |].
    unfold is_score. simpl. now rewrite Hc.
Qed.

Lemma match_at_complete (score post : string) :
  is_score score = true ->
  match_at (rated_prefix +:+ score +:+ "/10" +:+ post) = Some score.
Proof.
  intros H. unfold match_at. rewrite strip_prefix_app.
  now apply rated_group_complete.
Qed.

Lemma match_at_sound (s g : string) :
  match_at s = Some g ->
  exists post, s = rated_prefix +:+ g +:+ "/10" +:+ post /\ is_score g = true.
Proof.
  unfold match_at. destruct (strip_prefix rated_prefix s) as [r|] eqn:E;
    [| discriminate].
  intros H. apply rated_group_sound in H as (post & -> & Hs).
  exists post. split; [| exact Hs]. now apply strip_prefix_inv.
Qed.

Lemma re_search_cons (c : ascii) (s : string) :
  re_search (String c s)
  = match match_at (String c s) with
    | Some g => Some g
    | None => re_search s
    end.
Proof. reflexivity. Qed.

Lemma re_search_here (s g : string) :
  match_at s = Some g -> re_search s = Some g.
Proof.
  intros H. destruct s as [|c s]; [discriminate H |].
  now rewrite re_search_cons, H.
Qed.

(** Every score that [re_search] returns stands in a rating line. *)
Lemma re_search_sound (text g : string) :
  re_search text = Some g -> contains_rating text g.
Proof.
  induction text as [|c text IH]; [discriminate |].
  rewrite re_search_cons.
  - destruct (match_at (String c text)) as [g'|] eqn:E.
    + intros [= <-]. apply match_at_sound in E as (post & E & Hs).
      exists "", post. now split.
    + intros H. destruct (IH H) as (pre & post & -> & Hs).
      exists (String c pre), post. now split.
Qed.

(** A text with a rating line always yields a match. *)
Lemma re_search_complete (text score : string) :
  contains_rating text score -> exists g, re_search text = Some g.
Proof.
  intros (pre & post & -> & Hs).
  induction pre as [|c pre IH].
  - exists score. rewrite app_nil.
    apply re_search_here. now apply match_at_complete.
  - destruct IH as [g Hg]. rewrite app_cons, re_search_cons.
    destruct (match_at (String c (pre +:+ _))) as [g'|]; eauto.
Qed.

(** Nothing is found in a text without a rating line. *)
Lemma re_search_none (text : string) :
  (forall score, ~ contains_rating text score) -> re_search text = None.
Proof.
  intros H. destruct (re_search text) as [g|] eqn:E; [| reflexivity].
  exfalso. exact (H g (re_search_sound _ _ E)).
Qed.

Lemma all_matches_cons (c : ascii) (s : string) :
  all_matches (String c s)
  = ((match match_at (String c s) with Some g => [g] | None => [] end)
     ++ all_matches s)%list.
Proof. reflexivity. Qed.

Lemma all_matches_here (s g : string) :
  match_at s = Some g -> In g (all_matches s).
Proof.
  intros H. destruct s as [|c s]; [discriminate H |].
  rewrite all_matches_cons, H. now left.
Qed.

Lemma all_matches_complete (text score : string) :
  contains_rating text score -> In score (all_matches text).
Proof.
  intros (pre & post & -> & Hs).
  induction pre as [|c pre IH].
  - rewrite app_nil. apply all_matches_here. now apply match_at_complete.
  - rewrite app_cons, all_matches_cons. apply in_or_app. now right.
Qed.

Lemma re_search_head (text : string) :
  re_search text = head (all_matches text).
Proof.
  induction text as [|c text IH]; [reflexivity |].
  rewrite re_search_cons, all_matches_cons.
  destruct (match_at (String c text)); [reflexivity | exact IH].
Qed.

(** ** The score of some rating line *)

(** A tool output that holds the rating line
    [Your code has been rated at <score>/10] always gives a match whose
    group is the score of a rating line of the text; when the text rates
    the code with one score only, the extraction yields that score. *)
Lemma rating_line_extracted (text score : string) :
  contains_rating text score ->
  (exists g, re_search text = Some g /\ contains_rating text g)
  /\ ((forall s, contains_rating text s -> s = score) ->
      re_search text = Some score).
Proof.
  intros H. destruct (re_search_complete _ _ H) as [g Hg].
  pose proof (re_search_sound _ _ Hg) as Hc.
  split; [eauto |].
  intros U. now rewrite Hg, (U g Hc).
Qed.

(** ** C3 *)

Lemma rating_at_here (text score : string) :
  match_at text = Some score <-> rating_at text "" score.
Proof.
  unfold rating_at. split.
  - intros H. apply match_at_sound in H as (post & -> & Hs).
    exists post. now rewrite app_nil.
  - intros (post & -> & Hs). rewrite app_nil. now apply match_at_complete.
Qed.

Lemma rating_at_later (c : ascii) (text pre score : string) :
  rating_at (String c text) (String c pre) score <-> rating_at text pre score.
Proof.
  unfold rating_at. split; intros (post & E & Hs); exists post;
    (split; [| exact Hs]).
  - rewrite app_cons in E. now injection E.
  - rewrite app_cons. now f_equal.
Qed.

Lemma rating_at_head (c d : ascii) (text pre score : string) :
  rating_at (String c text) (String d pre) score -> c = d.
Proof.
  intros (post & E & _). rewrite app_cons in E. now injection E.
Qed.

(** No rating line starts inside a text without the capital letter of
    the pattern. *)
Lemma no_rating_line_inside (pre rest : string) :
  lacks "Y" pre = true ->
  forall pre' score',
    rating_at (pre +:+ rest) pre' score' ->
    (String.length pre <= String.length pre')%nat.
Proof.
  induction pre as [|c pre IH]; intros Hl pre' score' H.
  - simpl. lia.
  - cbn [lacks] in Hl. apply andb_prop in Hl as [Hc Hl].
    apply negb_true_iff in Hc. rewrite app_cons in H.
    destruct pre' as [|d pre'].
    + apply rating_at_here in H. unfold match_at, rated_prefix in H.
      cbn [strip_prefix] in H. rewrite Hc in H. discriminate.
    + pose proof (rating_at_head _ _ _ _ _ H) as <-.
      apply rating_at_later in H. specialize (IH Hl pre' score' H).
      simpl. lia.
Qed.

(** C3, amended.  From a tool output that holds rating lines
    [Your code has been rated at <score>/10], the extraction yields the
    score of the leftmost one: when the line with [score] starts right
    after [pre], and no rating line of the text starts at a smaller
    offset, [re.search] gives [score]. *)
Theorem leftmost_rating_line_is_extracted (text pre score : string) :
  rating_at text pre score ->
  (forall pre' score',
      rating_at text pre' score' ->
      (String.length pre <= String.length pre')%nat) ->
  re_search text = Some score.
Proof.
  revert text. induction pre as [|c pre IH]; intros text H Hmin.
  - apply re_search_here. now apply rating_at_here.
  - destruct text as [|d text].
    { destruct H as (post & E & _). rewrite app_cons in E. discriminate. }
    pose proof (rating_at_head _ _ _ _ _ H) as ->.
    rewrite re_search_cons.
    destruct (match_at (String c text)) as [g|] eqn:E.
    + apply rating_at_here in E. specialize (Hmin "" g E). simpl in Hmin. lia.
    + apply IH.
      * now apply rating_at_later in H.
      * intros pre' score' H'.
        apply (rating_at_later c) in H'. specialize (Hmin _ _ H').
        simpl in Hmin. lia.
Qed.

Lemma leftmost_rating_line_is_extracted_witness :
  let pre := "************* Module demo" +:+ nl
             +:+ "demo.py:1:0: C0114: Missing module docstring (missing-module-docstring)"
             +:+ nl +:+ nl
             +:+ "------------------------------------------------------------------"
             +:+ nl in
  rating_at pylint_report pre "8.43"
  /\ re_search pylint_report = Some "8.43".
Proof.
  intros pre.
  assert (H : rating_at pylint_report pre "8.43").
  { exists (" (previous run: 7.50/10, +0.93)" +:+ nl). split; reflexivity. }
  split; [exact H |].
  apply (leftmost_rating_line_is_extracted pylint_report pre "8.43" H).
  change pylint_report
    with (pre +:+ rated_prefix +:+ "8.43/10 (previous run: 7.50/10, +0.93)" +:+ nl).
  apply no_rating_line_inside. reflexivity.
Defined.

(** The claim as it was worded fails on a text with two rating lines:
    the text holds the line with 8.43, and the extraction yields 0.00. *)
Lemma later_rating_line_is_not_extracted :
  contains_rating two_ratings "8.43"
  /\ re_search two_ratings = Some "0.00"
  /\ re_search two_ratings <> Some "8.43".
Proof.
  split; [| split].
  - exists (rated "0.00"), nl. split; reflexivity.
  - reflexivity.
  - intros H. vm_compute in H. discriminate.
Qed.

(** The text of the score is kept as it is; [float] reads ["8.43"] as
    the binary64 number nearest to 8.43, [4745668107341660 * 2^-49]. *)
Example float_of_the_sample_score :
  PyFloat.of_string "8.43" = Some (S754_finite false 4745668107341660 (-49)).
Proof. reflexivity. Qed.

(** With two rating lines the leftmost one is taken. *)
Example leftmost_rating_wins :
  re_search ("Your code has been rated at 1.00/10 ... Your code has been rated at 2.00/10")
  = Some "1.00".
Proof. reflexivity. Qed.

End RegexFacts.

(* ===================================================================== *)
(** * Running a computation step by step *)
(* ===================================================================== *)

Module Steps.
Import Py PyFloat Text Regex Builtins CodeCheckerPy Reasoning.
Open Scope py_scope.
Local Open Scope list_scope.

Lemma bind_ret {A B} (m : M A) (k : A -> M B) env st a st' :
  m env st = (Ret a, st') -> bind m k env st = k a env st'.
Proof. intros H. unfold bind. now rewrite H. Qed.

Lemma bind_raise {A B} (m : M A) (k : A -> M B) env st e st' :
  m env st = (Raise e, st') -> bind m k env st = (Raise e, st').
Proof. intros H. unfold bind. now rewrite H. Qed.

Lemma log_log st es es' : log (log st es) es' = log st (es ++ es').
Proof. unfold log. simpl. now rewrite <- app_assoc. Qed.

Lemma log_nil st : log st [] = st.
Proof. destruct st. unfold log. simpl. now rewrite app_nil_r. Qed.

Lemma heap_log st es : heap (log st es) = heap st.
Proof. reflexivity. Qed.

Lemma trace_log st es : trace (log st es) = trace st ++ es.
Proof. reflexivity. Qed.

Lemma run_ret {A} (a : A) env st : ret a env st = (Ret a, st).
Proof. reflexivity. Qed.


Lemma run_ask env st : ask env st = (Ret env, st).
Proof. reflexivity. Qed.

Lemma run_print text env st : print text env st = (Ret tt, log st [Print text]).
Proof. reflexivity. Qed.

Lemma run_which cmd env st :
  shutil_which cmd env st = (Ret (which env cmd), log st [Which cmd]).
Proof. reflexivity. Qed.

Lemma run_isdir path env st :
  os_path_isdir path env st = (Ret (isdir env path), log st [Isdir path]).
Proof. reflexivity. Qed.

Lemma run_walk top env st :
  os_walk top env st = (Ret (walk env top), log st [Walk top]).
Proof. reflexivity. Qed.

Lemma run_subprocess argv env st :
  run_error env argv = None ->
  subprocess_run argv env st = (Ret (run env argv), log st [Run argv]).
Proof. intros H. unfold subprocess_run, bind, ask, emit. simpl. now rewrite H. Qed.

Lemma run_subprocess_raises argv env st e :
  run_error env argv = Some e ->
  subprocess_run argv env st = (Raise e, log st [Run argv]).
Proof. intros H. unfold subprocess_run, bind, ask, emit. simpl. now rewrite H. Qed.

Lemma run_getattr l name env st o v :
  heap st !! l = Some o -> obj_dict o !! name = Some v ->
  getattr l name env st = (Ret v, st).
Proof. intros H1 H2. unfold getattr. now rewrite H1, H2. Qed.


Lemma run_class_of l env st o :
  heap st !! l = Some o -> class_of l env st = (Ret (obj_class o), st).
Proof. intros H. unfold class_of. now rewrite H. Qed.

(** ** Properties of the state that every step keeps *)

Section Preserved.
Context (R : State -> State -> Prop).
Context (R_refl : forall st, R st st).
Context (R_trans : forall a b c, R a b -> R b c -> R a c).

Lemma preserves_ret {A} (a : A) : preserves R (ret a).
Proof. intros env st. apply R_refl. Qed.

Lemma preserves_raise {A} e : preserves R (@raise A e).
Proof. intros env st. apply R_refl. Qed.

Lemma preserves_ask : preserves R ask.
Proof. intros env st. apply R_refl. Qed.

Lemma preserves_bind {A B} (m : M A) (k : A -> M B) :
  preserves R m -> (forall a, preserves R (k a)) -> preserves R (bind m k).
Proof.
  intros Hm Hk env st. unfold bind. specialize (Hm env st).
  destruct (m env st) as [[a|e] st']; simpl in *.
  - eapply R_trans; [exact Hm | apply Hk].
  - exact Hm.
Qed.

Lemma preserves_when b (m : M unit) : preserves R m -> preserves R (when b m).
Proof. intros H. destruct b; simpl; [exact H | apply preserves_ret]. Qed.

Lemma preserves_getattr l name : preserves R (getattr l name).
Proof.
  intros env st. unfold getattr.
  destruct (heap st !! l) as [o|]; [| apply R_refl].
  destruct (obj_dict o !! name); [apply R_refl |].
  destruct (class_attr (obj_class o) name); apply R_refl.
Qed.

Lemma preserves_class_of l : preserves R (class_of l).
Proof.
  intros env st. unfold class_of.
  destruct (heap st !! l); apply R_refl.
Qed.

Lemma preserves_float_of_str s : preserves R (float_of_str s).
Proof.
  unfold float_of_str. destruct (of_string s);
    [apply preserves_ret | apply preserves_raise].
Qed.

Lemma preserves_float_of_val v : preserves R (float_of_val v).
Proof.
  destruct v; first [apply preserves_ret | apply preserves_raise].
Qed.

Lemma preserves_lt_with_str f v : preserves R (lt_with_str f v).
Proof.
  destruct v; simpl;
    first [apply preserves_ret | apply preserves_raise
          | apply preserves_bind; [apply preserves_ask | intros; apply preserves_ret]].
Qed.

Lemma preserves_for_each {A L V} (body : A -> L -> M (L + V)) xs :
  (forall x acc, preserves R (body x acc)) ->
  forall acc, preserves R (for_each body xs acc).
Proof.
  intros Hb. induction xs as [|x xs IH]; intros acc; simpl.
  - apply preserves_ret.
  - apply preserves_bind; [apply Hb |].
    intros [acc'|v]; [apply IH | apply preserves_ret].
Qed.

Lemma preserves_map_M {A B} (f : A -> M B) xs :
  (forall x, preserves R (f x)) -> preserves R (map_M f xs).
Proof.
  intros Hf. induction xs as [|x xs IH]; simpl.
  - apply preserves_ret.
  - apply preserves_bind; [apply Hf |]. intros y.
    apply preserves_bind; [apply IH |]. intros ys. apply preserves_ret.
Qed.

Lemma preserves_try_except {A} (m : M A) catches h :
  preserves R m -> (forall e, preserves R (h e)) ->
  preserves R (try_except m catches h).
Proof.
  intros Hm Hh env st. unfold try_except. specialize (Hm env st).
  destruct (m env st) as [[a|e] st']; simpl in *; [exact Hm |].
  destruct (catches e); [| exact Hm].
  eapply R_trans; [exact Hm | apply Hh].
Qed.

(** ** The plugins, given that [print] keeps [R] *)

Context (R_print : forall text, preserves R (print text)).

(** One rule per construct of the computations; [kept] applies them as
    far as they go, splitting on the tests and matches it meets. *)
Ltac kept :=
  repeat first
    [ apply preserves_ret | apply preserves_raise | apply preserves_ask
    | apply preserves_getattr | apply preserves_class_of
    | apply preserves_float_of_str | apply preserves_float_of_val
    | apply preserves_lt_with_str | apply R_print
    | apply preserves_when
    | apply preserves_map_M; intros ?
    | apply preserves_bind; [| intros ?]
    | progress cbv zeta
    | match goal with
      | |- preserves _ (if ?b then _ else _) => destruct b
      | |- preserves _ (let '(_, _) := ?p in _) => destruct p
      | |- preserves _ (match ?x with Some _ => _ | None => _ end) =>
          destruct x
      end ].

Lemma preserves_report_score self filename lv res :
  preserves R (report_score self filename lv res).
Proof.
  unfold report_score. kept.
Qed.

Lemma preserves_check_finish lv : preserves R (check_finish lv).
Proof.
  unfold check_finish. kept.
Qed.

(** ** ... and that the system calls keep it too *)

Context (R_emit : forall e, preserves R (emit e)).

Lemma preserves_sys {A} (e : event) (f : Env -> A) :
  preserves R (env <- ask;; emit e;;; ret (f env)).
Proof. kept. apply R_emit. Qed.

Lemma preserves_subprocess_run argv : preserves R (subprocess_run argv).
Proof.
  unfold subprocess_run.
  apply preserves_bind; [apply preserves_ask | intros env].
  apply preserves_bind; [apply R_emit | intros _].
  destruct (run_error env argv); [apply preserves_raise | apply preserves_ret].
Qed.

Lemma preserves_get_source_files self source :
  preserves R (get_source_files self source).
Proof.
  unfold get_source_files.
  apply preserves_bind; [apply preserves_sys | intros d].
  destruct d; [| kept].
  apply preserves_bind; [apply preserves_sys | intros w; kept].
Qed.

Lemma preserves_check_file self filename lv :
  preserves R (check_file self filename lv).
Proof.
  apply preserves_bind; [apply preserves_subprocess_run | intros res].
  apply preserves_report_score.
Qed.

Lemma preserves_PylintPlugin_check self source :
  preserves R (PylintPlugin_check self source).
Proof.
  unfold PylintPlugin_check.
  apply preserves_bind; [apply preserves_sys | intros p].
  destruct (negb (found p)); [kept |].
  apply preserves_bind; [kept | intros verbose].
  apply preserves_bind; [kept | intros _].
  apply preserves_bind; [apply preserves_get_source_files | intros files].
  apply preserves_bind;
    [apply preserves_for_each; intros; apply preserves_check_file |].
  intros [lv|v]; [apply preserves_check_finish | kept].
Qed.

Lemma preserves_passthrough_check tool self source :
  preserves R (passthrough_check tool self source).
Proof.
  unfold passthrough_check.
  apply preserves_bind; [apply preserves_sys | intros p].
  destruct (negb (found p)); [kept |].
  apply preserves_bind; [kept | intros verbose].
  apply preserves_bind; [kept | intros _].
  apply preserves_bind; [apply preserves_subprocess_run | intros res]. kept.
Qed.

Lemma preserves_call_check plugin source :
  preserves R (call_check plugin source).
Proof.
  unfold call_check.
  apply preserves_bind; [kept | intros cls].
  destruct cls.
  - kept.
  - apply preserves_PylintPlugin_check.
  - apply preserves_passthrough_check.
  - kept.
Qed.

End Preserved.

End Steps.

(* ===================================================================== *)
(** * Nothing is written after construction *)
(* ===================================================================== *)

Module Immutability.
Import Py PyFloat Text Regex Builtins CodeCheckerPy Samples Reasoning Steps.
Open Scope py_scope.
Local Open Scope list_scope.

Lemma same_heap_refl st : same_heap st st.
Proof. reflexivity. Qed.

Lemma same_heap_trans a b c : same_heap a b -> same_heap b c -> same_heap a c.
Proof. unfold same_heap. congruence. Qed.

Lemma same_heap_emit e : preserves same_heap (emit e).
Proof. intros env st. reflexivity. Qed.

Lemma same_heap_print text : preserves same_heap (print text).
Proof. apply same_heap_emit. Qed.

Lemma heap_PylintPlugin_check self source env st :
  heap (PylintPlugin_check self source env st).2 = heap st.
Proof.
  apply (preserves_PylintPlugin_check same_heap same_heap_refl same_heap_trans
           same_heap_print same_heap_emit).
Qed.

Lemma heap_get_source_files self source env st :
  heap (get_source_files self source env st).2 = heap st.
Proof.
  apply (preserves_get_source_files same_heap same_heap_refl same_heap_trans
           same_heap_emit).
Qed.

Lemma heap_passthrough_check tool self source env st :
  heap (passthrough_check tool self source env st).2 = heap st.
Proof.
  apply (preserves_passthrough_check same_heap same_heap_refl same_heap_trans
           same_heap_print same_heap_emit).
Qed.

Lemma heap_call_check plugin source env st :
  heap (call_check plugin source env st).2 = heap st.
Proof.
  apply (preserves_call_check same_heap same_heap_refl same_heap_trans
           same_heap_print same_heap_emit).
Qed.

Lemma run_setattr l name v env st o :
  heap st !! l = Some o ->
  setattr l name v env st
  = (Ret tt, mkState (<[l := mkObj (obj_class o) (<[name := v]> (obj_dict o))]> (heap st))
                     (trace st)).
Proof. intros H. unfold setattr. now rewrite H. Qed.

Lemma run_setattr_twice l n1 v1 n2 v2 env st o :
  heap st !! l = Some o ->
  (setattr l n1 v1;;; setattr l n2 v2) env st
  = (Ret tt, mkState (<[l := mkObj (obj_class o) (<[n2 := v2]> (<[n1 := v1]> (obj_dict o)))]>
                        (heap st))
                     (trace st)).
Proof.
  intros H. erewrite bind_ret by (apply run_setattr; exact H).
  erewrite run_setattr by (simpl; apply lookup_insert_eq).
  simpl. now rewrite insert_insert_eq.
Qed.

Lemma run_init cls l verbose env st :
  heap st !! l = Some (mkObj cls ∅) ->
  match cls with
  | CodeChecker => CodeChecker_init l verbose VNone
  | PylintPlugin => PylintPlugin_init l verbose
  | Flake8Plugin => Flake8Plugin_init l verbose
  | PyDocStylePlugin => PyDocStylePlugin_init l verbose
  end env st
  = (Ret tt, mkState (<[l := mkObj cls (init_dict cls verbose)]> (heap st)) (trace st)).
Proof.
  intros H. destruct cls.
  - unfold CodeChecker_init.
    erewrite bind_ret by (apply run_setattr; exact H).
    erewrite run_setattr_twice by (simpl; apply lookup_insert_eq).
    simpl. now rewrite insert_insert_eq.
  - unfold PylintPlugin_init. now erewrite run_setattr_twice by exact H.
  - unfold Flake8Plugin_init. now erewrite run_setattr by exact H.
  - unfold PyDocStylePlugin_init. now erewrite run_setattr by exact H.
Qed.

(** [cls(verbose)] adds one object at a fresh place and touches nothing
    else. *)
Lemma run_construct cls verbose env st :
  construct cls verbose env st
  = (Ret (fresh (dom (heap st))),
     mkState (<[fresh (dom (heap st)) := mkObj cls (init_dict cls verbose)]> (heap st))
             (trace st)).
Proof.
  unfold construct, alloc, bind at 1.
  erewrite bind_ret by (apply run_init; simpl; apply lookup_insert_eq).
  simpl. now rewrite insert_insert_eq.
Qed.

Lemma fresh_not_allocated (h : gmap loc Obj) : h !! fresh (dom h) = None.
Proof. apply not_elem_of_dom, is_fresh. Qed.

Lemma heap_get_plugins self env st : (get_plugins self env st).2 = st.
Proof.
  unfold get_plugins, bind, getattr.
  destruct (heap st !! self) as [o|]; [| reflexivity].
  destruct (obj_dict o !! "plugins") as [v|].
  - destruct v; reflexivity.
  - destruct (class_attr (obj_class o) "plugins") as [v|]; [| reflexivity].
    destruct v; reflexivity.
Qed.

Lemma heap_getattr l name env st : (getattr l name env st).2 = st.
Proof.
  unfold getattr.
  destruct (heap st !! l) as [o|]; [| reflexivity].
  destruct (obj_dict o !! name); [reflexivity |].
  destruct (class_attr (obj_class o) name); reflexivity.
Qed.

(** After [run_check] the heap is the old one, or the old one with the one
    plugin instance exactly as its constructor left it. *)
Lemma heap_run_check self source checker env st :
  heap (run_check self source checker env st).2 = heap st
  \/ exists cls verbose,
       heap (run_check self source checker env st).2
       = <[fresh (dom (heap st)) := mkObj cls (init_dict cls verbose)]> (heap st).
Proof.
  remember (run_check self source checker env st) as r eqn:Hr.
  unfold run_check in Hr. unfold bind at 1 in Hr.
  pose proof (heap_get_plugins self env st) as Hp.
  destruct (get_plugins self env st) as [[d|e] st1]; simpl in Hp; subst st1;
    [| subst r; now left].
  destruct (d !! checker) as [cls|]; [| subst r; now left].
  unfold bind at 1 in Hr.
  pose proof (heap_getattr self "verbose" env st) as Hv.
  destruct (getattr self "verbose" env st) as [[v|e] st1]; simpl in Hv; subst st1;
    [| subst r; now left].
  right. exists cls, v.
  erewrite bind_ret in Hr by apply run_construct.
  subst r. now rewrite heap_call_check.
Qed.

(** ** C9 *)

(** C9. [run_check] leaves every object that existed before the call as it
    was, the [CodeChecker] with its [plugins], [verbose] and [optional]
    included; the only change it can make to the heap is the one new
    plugin instance, which is still as its constructor left it when the
    call ends; and no operation of a plugin writes to the heap at all. *)
Theorem registry_and_configuration_are_stable :
  (forall env st self source checker l o,
      heap st !! l = Some o ->
      heap (run_check self source checker env st).2 !! l = Some o)
  /\ (forall env st self source checker,
         heap (run_check self source checker env st).2 = heap st
         \/ exists cls verbose,
              heap (run_check self source checker env st).2
              = <[fresh (dom (heap st)) := mkObj cls (init_dict cls verbose)]>
                  (heap st))
  /\ (forall env st plugin source,
         heap (PylintPlugin_check plugin source env st).2 = heap st)
  /\ (forall env st plugin source,
         heap (get_source_files plugin source env st).2 = heap st)
  /\ (forall env st plugin source,
         heap (Flake8Plugin_check plugin source env st).2 = heap st)
  /\ (forall env st plugin source optional,
         heap (PyDocStylePlugin_check plugin source optional env st).2 = heap st).
Proof.
  repeat split.
  - intros env st self source checker l o Hl.
    destruct (heap_run_check self source checker env st) as [-> | (cls & v & ->)];
      [exact Hl |].
    rewrite lookup_insert_ne; [exact Hl |].
    intros <-. rewrite fresh_not_allocated in Hl. discriminate.
  - intros. apply heap_run_check.
  - intros. apply heap_PylintPlugin_check.
  - intros. apply heap_get_source_files.
  - intros. apply heap_passthrough_check.
  - intros. apply heap_passthrough_check.
Qed.

Lemma registry_and_configuration_are_stable_witness :
  let st := with_pylint (VBool true) (VFloat f7_5) in
  let cc := checker_object (VBool true) (VFloat f7_5) in
  heap st !! 0%nat = Some cc
  /\ heap (run_check 0%nat "proj" "pylint" three_mixed st).2 !! 0%nat = Some cc
  /\ heap (run_check 0%nat "proj" "mypy" three_mixed st).2 !! 0%nat = Some cc.
Proof.
  intros st cc.
  split; [reflexivity |].
  split.
  - apply (proj1 registry_and_configuration_are_stable three_mixed st 0%nat
             "proj" "pylint" 0%nat cc).
    reflexivity.
  - apply (proj1 registry_and_configuration_are_stable three_mixed st 0%nat
             "proj" "mypy" 0%nat cc).
    reflexivity.
Defined.

End Immutability.

(* ===================================================================== *)
(** * The registry and the dispatch *)
(* ===================================================================== *)

Module Dispatch.
Import Py PyFloat Text Regex Builtins CodeCheckerPy Samples Reasoning Steps Immutability.
Open Scope py_scope.
Local Open Scope list_scope.

Lemma run_get_plugins self env st o d :
  heap st !! self = Some o -> obj_dict o !! "plugins" = Some (VDict d) ->
  get_plugins self env st = (Ret d, st).
Proof.
  intros Ho Hd. unfold get_plugins.
  now erewrite bind_ret by (eapply run_getattr; eassumption).
Qed.

(** A name that is not in the registry: [ValueError], naming it, and
    nothing else happens. *)
Lemma unregistered_checker_raises self source checker env st o d :
  heap st !! self = Some o -> obj_dict o !! "plugins" = Some (VDict d) ->
  d !! checker = None ->
  run_check self source checker env st
  = (Raise (ValueError ("Checker '" +:+ checker +:+ "' is not registered.")), st).
Proof.
  intros Ho Hd Hc. unfold run_check.
  erewrite bind_ret by (eapply run_get_plugins; eassumption).
  now rewrite Hc.
Qed.

(** A registered name: the class is instantiated with [self.verbose] and
    [check] is called on the new instance with the one argument. *)
Lemma registered_checker_dispatches self source checker env st o d cls v :
  heap st !! self = Some o -> obj_dict o !! "plugins" = Some (VDict d) ->
  obj_dict o !! "verbose" = Some v ->
  d !! checker = Some cls ->
  run_check self source checker env st
  = call_check (fresh (dom (heap st))) source env
      (mkState (<[fresh (dom (heap st)) := mkObj cls (init_dict cls v)]> (heap st))
               (trace st)).
Proof.
  intros Ho Hd Hv Hc. unfold run_check.
  erewrite bind_ret by (eapply run_get_plugins; eassumption).
  rewrite Hc.
  erewrite bind_ret by (eapply run_getattr; eassumption).
  now erewrite bind_ret by apply run_construct.
Qed.

(** On an instance of [PylintPlugin] or [Flake8Plugin] the call reaches
    the method. *)
Lemma call_check_reaches plugin source env st o :
  heap st !! plugin = Some o ->
  call_check plugin source env st
  = match obj_class o with
    | PylintPlugin => PylintPlugin_check plugin source env st
    | Flake8Plugin => Flake8Plugin_check plugin source env st
    | PyDocStylePlugin =>
        (Raise (TypeError "PyDocStylePlugin.check() missing 1 required positional argument: 'optional'"), st)
    | CodeChecker => (Raise (AttributeError "CodeChecker" "check"), st)
    end.
Proof.
  intros Ho. unfold call_check.
  erewrite bind_ret by (apply run_class_of; exact Ho).
  now destruct (obj_class o).
Qed.

(** ** C1 *)

(** C1, where the code departs from it: with the registry that [main]
    builds, dispatching ["pydocstyle"] does not reach
    [PyDocStylePlugin.check].  The call passes one argument to a method
    that requires two, so it raises [TypeError] before the body runs (no
    event is logged), and [main], which catches only [ValueError] and
    [EnvironmentError], lets it escape. *)
Theorem pydocstyle_dispatch_raises_type_error :
  forall (env : Env) (verbose : bool) (source : string)
         (scores_less_than : option string),
    let args := mkArgs "pydocstyle" verbose source scores_less_than in
    let r := (code_checker <- cli_checker args;;
              run_check code_checker source "pydocstyle") env initial in
    r.1 = Raise (TypeError "PyDocStylePlugin.check() missing 1 required positional argument: 'optional'")
    /\ trace r.2 = []
    /\ (main args env initial).1
       = Raise (TypeError "PyDocStylePlugin.check() missing 1 required positional argument: 'optional'").
Proof.
  intros env verbose source scores_less_than. cbv zeta.
  repeat split; vm_compute; reflexivity.
Qed.

(** The other two names of [main]'s registry do reach their method. *)
Lemma cli_dispatch_reaches_pylint_and_flake8 env verbose source threshold :
  let args := mkArgs "" verbose source threshold in
  forall code_checker st,
    cli_checker args env initial = (Ret code_checker, st) ->
    run_check code_checker source "pylint" env st
    = PylintPlugin_check 1%nat source env
        (mkState (<[1%nat := mkObj PylintPlugin
                               (init_dict PylintPlugin (VBool verbose))]> (heap st))
                 (trace st))
    /\ run_check code_checker source "flake8" env st
       = Flake8Plugin_check 1%nat source env
           (mkState (<[1%nat := mkObj Flake8Plugin
                                  (init_dict Flake8Plugin (VBool verbose))]> (heap st))
                    (trace st)).
Proof.
  intros args code_checker st H. vm_compute in H.
  injection H as <- <-.
  split.
  - erewrite registered_checker_dispatches;
      [| vm_compute; reflexivity | vm_compute; reflexivity
       | vm_compute; reflexivity | vm_compute; reflexivity].
    erewrite call_check_reaches by (vm_compute; reflexivity).
    reflexivity.
  - erewrite registered_checker_dispatches;
      [| vm_compute; reflexivity | vm_compute; reflexivity
       | vm_compute; reflexivity | vm_compute; reflexivity].
    erewrite call_check_reaches by (vm_compute; reflexivity).
    reflexivity.
Qed.

End Dispatch.

(* ===================================================================== *)
(** * A missing executable *)
(* ===================================================================== *)

Module Unavailable.
Import Py PyFloat Text Regex Builtins CodeCheckerPy Samples Reasoning Steps.
Open Scope py_scope.
Local Open Scope list_scope.

Lemma passthrough_unavailable tool self source env st :
  found (which env tool) = false ->
  passthrough_check tool self source env st
  = (Raise (EnvironmentError (tool +:+ " is not available in the system's PATH")),
     log st [Which tool]).
Proof.
  intros H. unfold passthrough_check.
  erewrite bind_ret by apply run_which. now rewrite H.
Qed.

(** ** C7 *)

(** C7. When the executable of a plugin is not found on the search path,
    [check] raises [EnvironmentError] with the text
    [<tool> is not available in the system's PATH], and the look-up on the
    path is the only thing that happened: no [isdir], no walk, no
    sub-process, no print, and the heap is as before. *)
Theorem missing_tool_aborts_before_any_file :
  forall (env : Env) (st : State) (self : loc) (source : string) (optional : Val),
    (found (which env "pylint") = false ->
     PylintPlugin_check self source env st
     = (Raise (EnvironmentError "pylint is not available in the system's PATH"),
        log st [Which "pylint"]))
    /\ (found (which env "flake8") = false ->
        Flake8Plugin_check self source env st
        = (Raise (EnvironmentError "flake8 is not available in the system's PATH"),
           log st [Which "flake8"]))
    /\ (found (which env "pydocstyle") = false ->
        PyDocStylePlugin_check self source optional env st
        = (Raise (EnvironmentError "pydocstyle is not available in the system's PATH"),
           log st [Which "pydocstyle"])).
Proof.
  intros env st self source optional. repeat split; intros H.
  - unfold PylintPlugin_check.
    erewrite bind_ret by apply run_which. now rewrite H.
  - now apply passthrough_unavailable.
  - now apply passthrough_unavailable.
Qed.

Lemma missing_tool_aborts_before_any_file_witness :
  let st := pylint_instance (VBool true) (VFloat fm1_0) None in
  found (which bare_machine "pylint") = false
  /\ PylintPlugin_check 0%nat "proj" bare_machine st
     = (Raise (EnvironmentError "pylint is not available in the system's PATH"),
        log st [Which "pylint"])
  /\ Flake8Plugin_check 0%nat "proj" bare_machine st
     = (Raise (EnvironmentError "flake8 is not available in the system's PATH"),
        log st [Which "flake8"])
  /\ PyDocStylePlugin_check 0%nat "proj" VNone bare_machine st
     = (Raise (EnvironmentError "pydocstyle is not available in the system's PATH"),
        log st [Which "pydocstyle"]).
Proof.
  intros st.
  destruct (missing_tool_aborts_before_any_file bare_machine st 0%nat "proj" VNone)
    as (H1 & H2 & H3).
  split; [reflexivity |].
  split; [apply H1; reflexivity |].
  split; [apply H2; reflexivity | apply H3; reflexivity].
Defined.

End Unavailable.

(* ===================================================================== *)
(** * The style checker and the documentation-style checker *)
(* ===================================================================== *)

Module Passthrough.
Import Py PyFloat Text Regex Builtins CodeCheckerPy Samples Reasoning Steps.
Open Scope py_scope.
Local Open Scope list_scope.



(** ** C8 *)



End Passthrough.

(* ===================================================================== *)
(** * The quality scorer: enumeration of the source files *)
(* ===================================================================== *)

Module SourceFiles.
Import Py PyFloat Text Regex Builtins CodeCheckerPy Samples Reasoning Steps.
Open Scope py_scope.
Local Open Scope list_scope.

Lemma bind_assoc_at {A B C} (m : M A) (f : A -> M B) (g : B -> M C) env st :
  bind (bind m f) g env st = bind m (fun x => bind (f x) g) env st.
Proof. unfold bind. destruct (m env st) as [[a|e] st']; reflexivity. Qed.

Lemma run_when_print b text env st :
  when b (print text) env st = (Ret tt, log st (if b then [Print text] else [])).
Proof. destruct b; simpl; [reflexivity | now rewrite log_nil]. Qed.

Lemma run_get_source_files self source env st :
  get_source_files self source env st
  = (Ret (source_files_of env source),
     log st (Isdir source :: if isdir env source then [Walk source] else [])).
Proof.
  unfold get_source_files, source_files_of.
  erewrite bind_ret by apply run_isdir.
  destruct (isdir env source).
  - erewrite bind_ret by apply run_walk. unfold ret. now rewrite log_log.
  - reflexivity.
Qed.

(** The first lines of [PylintPlugin.check], up to the loop: the look-up
    of pylint succeeds ([Hf]), [self] is the object [o] ([Ho]) whose
    [verbose] is known ([Hv]). *)
Ltac enter_check Hf Ho Hv :=
  unfold PylintPlugin_check;
  erewrite bind_ret by apply run_which;
  rewrite Hf; cbn [negb];
  erewrite bind_ret by (eapply run_getattr; [exact Ho | exact Hv]);
  erewrite bind_ret by apply run_when_print;
  erewrite bind_ret by apply run_get_source_files.

Lemma runs_of_app tr tr' : runs_of (tr ++ tr') = runs_of tr ++ runs_of tr'.
Proof.
  induction tr as [|e tr IH]; [reflexivity |].
  destruct e; simpl; rewrite IH; reflexivity.
Qed.

Lemma same_runs_refl st : same_runs st st.
Proof. reflexivity. Qed.

Lemma same_runs_trans a b c : same_runs a b -> same_runs b c -> same_runs a c.
Proof. unfold same_runs. congruence. Qed.

Lemma same_runs_print text : preserves same_runs (print text).
Proof.
  intros env st. unfold same_runs. simpl.
  rewrite runs_of_app. simpl. apply app_nil_r.
Qed.




(** ** C10 *)



End SourceFiles.

(* ===================================================================== *)
(** * The quality scorer: files without a rating line *)
(* ===================================================================== *)

Module Fallback.
Import Py PyFloat Text Regex Builtins CodeCheckerPy Samples Reasoning Steps SourceFiles.
Open Scope py_scope.
Local Open Scope list_scope.

Lemma run_verbose_streams (b : bool) out err env st :
  when b (print out;;; print err) env st
  = (Ret tt, log st (if b then [Print out; Print err] else [])).
Proof.
  destruct b; simpl; [| now rewrite log_nil].
  erewrite bind_ret by apply run_print. unfold print, emit, log. simpl.
  now rewrite <- app_assoc.
Qed.

(** No rating line: the file is skipped, only [result] is rebound. *)
Lemma run_report_score_unrated self filename lv res env st o v :
  heap st !! self = Some o -> obj_dict o !! "verbose" = Some v ->
  re_search (stdout res) = None ->
  report_score self filename lv res env st
  = (Ret (inl (mkLocals (scores lv) (score_at_least_eight lv)
                        (score_at_least_nine lv) (Some res))),
     log st (if truthy v then [Print (stdout res); Print (stderr res)] else [])).
Proof.
  intros Ho Hv Hn. unfold report_score.
  erewrite bind_ret by (eapply run_getattr; [exact Ho | exact Hv]).
  erewrite bind_ret by apply run_verbose_streams.
  rewrite Hn. reflexivity.
Qed.

Lemma last_result_cons env f files r :
  last_result env (f :: files) r
  = last_result env files (Some (run env ["pylint"; f])).
Proof. reflexivity. Qed.

(** The loop over files none of which has a rating line. *)
Lemma run_loop_unrated self env o v files :
  obj_dict o !! "verbose" = Some v ->
  Forall (linted env) files ->
  Forall (unrated env) files ->
  forall lv st,
    heap st !! self = Some o ->
    for_each (check_file self) files lv env st
    = (Ret (inl (mkLocals (scores lv) (score_at_least_eight lv)
                          (score_at_least_nine lv)
                          (last_result env files (result lv)))),
       log st (flat_map (unrated_events env v) files)).
Proof.
  intros Hv Hran Hall. induction files as [|f files IH]; intros lv st Ho.
  - simpl. unfold ret. rewrite log_nil. now destruct lv.
  - apply List.Forall_cons_iff in Hran as [Hr Hran].
    apply List.Forall_cons_iff in Hall as [Hf Hall].
    cbn [for_each]. unfold check_file at 1. rewrite bind_assoc_at.
    erewrite bind_ret by (apply run_subprocess; exact Hr).
    erewrite bind_ret
      by (eapply run_report_score_unrated; [exact Ho | exact Hv | exact Hf]).
    cbv beta iota. rewrite (IH Hran Hall) by exact Ho.
    rewrite !log_log, last_result_cons. reflexivity.
Qed.

Lemma last_result_nonempty env files r :
  files <> [] ->
  exists f, last files = Some f
            /\ last_result env files r = Some (run env ["pylint"; f]).
Proof.
  revert r. induction files as [|f files IH]; intros r Hne; [congruence |].
  destruct files as [|g files].
  - exists f. split; reflexivity.
  - destruct (IH (Some (run env ["pylint"; f])) ltac:(discriminate))
      as (x & Hx & Hr).
    exists x. split; [exact Hx | exact Hr].
Qed.

(** After the loop, with no score collected. *)
Lemma run_check_finish_unscored lv env st :
  scores lv = [] ->
  check_finish lv env st
  = (match result lv with
     | Some res => Ret (Some (stdout res))
     | None => Raise (UnboundLocalError "result")
     end, st).
Proof.
  intros E. unfold check_finish. rewrite E.
  rewrite bool_decide_eq_true_2 by reflexivity. cbn [negb].
  now destruct (result lv).
Qed.

(** What holds of C6: when at least one file is enumerated, every run
    returns and none has a rating line, [check] returns the standard
    output of the last pylint run as it is. *)
Lemma unrated_files_return_last_output self source env st o v f :
  heap st !! self = Some o -> obj_dict o !! "verbose" = Some v ->
  found (which env "pylint") = true ->
  Forall (linted env) (source_files_of env source) ->
  Forall (unrated env) (source_files_of env source) ->
  last (source_files_of env source) = Some f ->
  (PylintPlugin_check self source env st).1
  = Ret (Some (stdout (run env ["pylint"; f]))).
Proof.
  intros Ho Hv Hf Hran Hall Hlast. enter_check Hf Ho Hv.
  erewrite bind_ret
    by (eapply run_loop_unrated; [exact Hv | exact Hran | exact Hall | exact Ho]).
  cbv beta iota. rewrite run_check_finish_unscored by reflexivity. cbn [result fst].
  destruct (last_result_nonempty env (source_files_of env source) None)
    as (x & Hx & ->).
  { intros E. rewrite E in Hlast. discriminate. }
  rewrite Hlast in Hx. injection Hx as <-. reflexivity.
Qed.

(** ** C6 *)

(** C6, where the code departs from it: when the enumeration of the
    source files is empty, the loop never binds [result], and the final
    [return result.stdout] raises [UnboundLocalError] instead of
    returning a text. *)
Theorem empty_enumeration_raises_unbound_local :
  forall (env : Env) (st : State) (self : loc) (source : string)
         (o : Obj) (v : Val),
    heap st !! self = Some o -> obj_dict o !! "verbose" = Some v ->
    found (which env "pylint") = true ->
    source_files_of env source = [] ->
    (PylintPlugin_check self source env st).1 = Raise (UnboundLocalError "result")
    /\ runs_of (trace (PylintPlugin_check self source env st).2)
       = runs_of (trace st).
Proof.
  intros env st self source o v Ho Hv Hf He. enter_check Hf Ho Hv.
  rewrite He. cbn [for_each]. erewrite bind_ret by apply run_ret.
  cbv beta iota. rewrite run_check_finish_unscored by reflexivity. cbn [result fst snd].
  split; [reflexivity |].
  rewrite !log_log, trace_log, runs_of_app.
  destruct (truthy v), (isdir env source); simpl; apply app_nil_r.
Qed.

Lemma empty_enumeration_raises_unbound_local_witness :
  let st := with_pylint (VBool false) VNone in
  source_files_of no_sources "docs" = []
  /\ (PylintPlugin_check 1%nat "docs" no_sources
        (plugin_instance_after st)).1
     = Raise (UnboundLocalError "result")
  /\ (run_check 0%nat "docs" "pylint" no_sources st).1
     = Raise (UnboundLocalError "result")
  /\ (main (mkArgs "pylint" false "docs" None) no_sources initial).1
     = Raise (UnboundLocalError "result").
Proof.
  intros st.
  split; [reflexivity |].
  split.
  - apply (empty_enumeration_raises_unbound_local no_sources
             (plugin_instance_after st) 1%nat "docs"
             (mkObj PylintPlugin (init_dict PylintPlugin (VBool false)))
             (VBool false)); reflexivity.
  - split; reflexivity.
Defined.

(** Two modules without a rating line: the output of the second run comes
    back as it is. *)
Example two_unrated_files_fall_back :
  (PylintPlugin_check 0%nat "proj" two_unrated
     (pylint_instance (VBool false) (VFloat fm1_0) None)).1
  = Ret (Some "b.py:3:1: E0001: Parsing failed (syntax-error)").
Proof.
  apply (unrated_files_return_last_output 0%nat "proj" two_unrated _
           (mkObj PylintPlugin
              (<["scorelimit" := VFloat fm1_0]> (init_dict PylintPlugin (VBool false))))
           (VBool false) "proj/b.py"); try reflexivity; repeat constructor.
Qed.

(** A single file that is no [.py] file and has no rating line: it is run
    all the same, once, and its output comes back. *)
Example lone_unrated_file_falls_back :
  let r := PylintPlugin_check 0%nat "setup.cfg" lone_unrated
             (pylint_instance (VBool false) (VFloat fm1_0) None) in
  r.1 = Ret (Some "setup.cfg:1:1: E0001: Parsing failed")
  /\ runs_of (trace r.2) = [["pylint"; "setup.cfg"]].
Proof. cbv zeta. split; vm_compute; reflexivity. Qed.

End Fallback.

(* ===================================================================== *)
(** * The quality scorer: files with a rating line *)
(* ===================================================================== *)

Module Scored.
Import Py PyFloat Text Regex Builtins CodeCheckerPy Samples Reasoning Steps SourceFiles
       Fallback RegexFacts.
Open Scope py_scope.
Local Open Scope list_scope.

Lemma score_is_not_the_placeholder text g :
  re_search text = Some g -> String.eqb g no_score = false.
Proof.
  intros H. apply re_search_sound in H as (pre & post & _ & Hs).
  destruct (String.eqb g no_score) eqn:E; [| reflexivity].
  apply String.eqb_eq in E. subst g. vm_compute in Hs. discriminate.
Qed.






(** ** C4 *)

(** C4, where the code departs from it: a [CodeChecker] without a
    threshold dispatches ["pylint"] over three modules rated 9.1, 8.2 and
    7.9.  No summary comes back: the first rating line makes the plugin
    read [self.optional], which it does not have, and [AttributeError]
    ends the run after the first sub-process, with nothing printed;
    [main] does not catch it. *)
Theorem three_rated_files_give_no_summary :
  let st := with_pylint (VBool false) VNone in
  let r := run_check 0%nat "proj" "pylint" three_rated st in
  r.1 = Raise (AttributeError "PylintPlugin" "optional")
  /\ trace r.2 = [Which "pylint"; Isdir "proj"; Walk "proj";
                  Run ["pylint"; "proj/a.py"]]
  /\ (main (mkArgs "pylint" false "proj" None) three_rated initial).1
     = Raise (AttributeError "PylintPlugin" "optional").
Proof. cbv zeta. repeat split; vm_compute; reflexivity. Qed.

(** ** C2 *)

(** C2, where the code departs from it: a [CodeChecker] built with the
    threshold 7.5 dispatches ["pylint"] over three modules rated 5.0, 8.0
    and 7.0.  The threshold stays in the [CodeChecker]; the plugin is
    built from [verbose] alone, and at the first rating line it raises
    [AttributeError] on [self.optional].  Neither of the two lines that
    the claim expects is printed.  The same holds when the threshold comes
    from the command line, where it is a text. *)
Theorem threshold_run_prints_no_score_line :
  let st := with_pylint (VBool false) (VFloat f7_5) in
  let r := run_check 0%nat "proj" "pylint" three_mixed st in
  r.1 = Raise (AttributeError "PylintPlugin" "optional")
  /\ trace r.2 = [Which "pylint"; Isdir "proj"; Walk "proj";
                  Run ["pylint"; "proj/a.py"]]
  /\ prints_of (trace r.2) = []
  /\ (main (mkArgs "pylint" false "proj" (Some "7.5")) three_mixed initial).1
     = Raise (AttributeError "PylintPlugin" "optional").
Proof. cbv zeta. repeat split; vm_compute; reflexivity. Qed.

(** ** C5 *)

(** C5, where the code departs from it: a [PylintPlugin] whose
    [scorelimit] is set to 6.0 checks three modules rated 7.0, 5.5 and
    9.0.  The run does not return [None] at the module rated 5.5: it
    raises [AttributeError] on [self.optional] at the first module, before
    any score is compared with the floor. *)
Theorem floor_is_never_compared :
  let st := pylint_instance (VBool false) (VFloat f6_0) None in
  let r := PylintPlugin_check 0%nat "proj" one_poor st in
  r.1 = Raise (AttributeError "PylintPlugin" "optional")
  /\ trace r.2 = [Which "pylint"; Isdir "proj"; Walk "proj";
                  Run ["pylint"; "proj/a.py"]].
Proof. cbv zeta. repeat split; vm_compute; reflexivity. Qed.

(** ** The same runs on an instance that was given an [optional] *)

(** With [optional] set to [None] on the plugin, the three modules rated
    9.1, 8.2 and 7.9 give the summary: two at least 8.0, one at least 9.0,
    three processed, and the average of the three floats. *)
Example summary_when_optional_is_none :
  let st := pylint_instance (VBool false) (VFloat fm1_0) (Some VNone) in
  let r := PylintPlugin_check 0%nat "proj" three_rated st in
  r.1 = Ret (Some (summary_message three_rated
                     (fdiv (plain_sum [of_decimal 91 1; of_decimal 82 1;
                                       of_decimal 79 1])
                           (of_Z 3))
                     2 1 3))
  /\ prints_of (trace r.2) = ["proj/a.py: 9.1"; "proj/b.py: 8.2"; "proj/c.py: 7.9"].
Proof. cbv zeta. split; vm_compute; reflexivity. Qed.

(** With [optional] set to the float 7.5 on the plugin, the modules rated
    5.0 and 7.0 are listed, the one rated 8.0 is not, every module is
    run, and the result is the raw output of the last run. *)
Example listing_when_optional_is_a_float :
  let st := pylint_instance (VBool false) (VFloat fm1_0) (Some (VFloat f7_5)) in
  let r := PylintPlugin_check 0%nat "proj" three_mixed st in
  r.1 = Ret (Some (rated "7.0"))
  /\ prints_of (trace r.2) = ["proj/a.py: 5.0"; "proj/c.py: 7.0"]
  /\ runs_of (trace r.2) = [["pylint"; "proj/a.py"]; ["pylint"; "proj/b.py"];
                            ["pylint"; "proj/c.py"]].
Proof. cbv zeta. repeat split; vm_compute; reflexivity. Qed.

(** With [optional] set to [None] and [scorelimit] to 6.0, the run returns
    [None] at the module rated 5.5 and the third module is not run. *)
Example abort_when_optional_is_none :
  let st := pylint_instance (VBool false) (VFloat f6_0) (Some VNone) in
  let r := PylintPlugin_check 0%nat "proj" one_poor st in
  r.1 = Ret None
  /\ runs_of (trace r.2) = [["pylint"; "proj/a.py"]; ["pylint"; "proj/b.py"]].
Proof. cbv zeta. split; vm_compute; reflexivity. Qed.

(** A threshold of 0.0 is false in [if self.optional], so the plugin
    takes the normal branch. *)
Example zero_threshold_is_normal_mode :
  let st := pylint_instance (VBool false) (VFloat fm1_0)
              (Some (VFloat (S754_zero false))) in
  let r := PylintPlugin_check 0%nat "proj" three_mixed st in
  prints_of (trace r.2) = ["proj/a.py: 5.0"; "proj/b.py: 8.0"; "proj/c.py: 7.0"].
Proof. vm_compute. reflexivity. Qed.

End Scored.

(* ===================================================================== *)
(** * The quality scorer on an instance that has an [optional] *)
(* ===================================================================== *)

(** [PylintPlugin.check] reads [self.optional], which the class never
    sets.  What follows is about instances on which the attribute has been
    set from outside ([plugin.optional = ...]), and shows what lines
    115-134 do once line 115 no longer raises. *)

Module WithOptional.
Import Py PyFloat Text Regex Builtins CodeCheckerPy Samples Reasoning Steps
       SourceFiles Fallback.
Open Scope py_scope.
Local Open Scope list_scope.

Section Instance.
Context (env : Env) (self : loc) (o : Obj) (v opt : Val) (limit : float).
Context (Hv : obj_dict o !! "verbose" = Some v).
Context (Hopt : obj_dict o !! "optional" = Some opt).
Context (Hlimit : obj_dict o !! "scorelimit" = Some (VFloat limit)).


(** ** Normal mode *)














(** ** The listing under a threshold *)




End Instance.

End WithOptional.

(* ===================================================================== *)
(** * More on the registry *)
(* ===================================================================== *)

Module Registry.
Import Py PyFloat Text Regex Builtins CodeCheckerPy Samples Calls Reasoning
       Steps Immutability Dispatch.
Open Scope py_scope.
Local Open Scope list_scope.

(** [register_plugin] rewrites the one attribute [plugins] of [self]. *)
Lemma run_register_plugin self name cls env st o d :
  heap st !! self = Some o -> obj_dict o !! "plugins" = Some (VDict d) ->
  register_plugin self name cls env st
  = (Ret tt,
     mkState (<[self := mkObj (obj_class o)
                          (<["plugins" := VDict (<[name := cls]> d)]> (obj_dict o))]>
                (heap st))
             (trace st)).
Proof.
  intros Ho Hd. unfold register_plugin.
  erewrite bind_ret by (eapply run_get_plugins; eassumption).
  now erewrite run_setattr by exact Ho.
Qed.

(** [CodeChecker(verbose, optional)] adds one object, with an empty
    registry. *)
Lemma run_CodeChecker_new verbose optional env st :
  CodeChecker_new verbose optional env st
  = (Ret (fresh (dom (heap st))),
     mkState (<[fresh (dom (heap st)) :=
                  mkObj CodeChecker
                    (<["optional" := optional]>
                       (<["verbose" := verbose]> (<["plugins" := VDict ∅]> ∅)))]>
                (heap st))
             (trace st)).
Proof.
  unfold CodeChecker_new, alloc, bind at 1, CodeChecker_init.
  erewrite bind_ret.
  2:{ erewrite bind_ret by (apply run_setattr; simpl; apply lookup_insert_eq).
      erewrite run_setattr_twice by (simpl; apply lookup_insert_eq).
      reflexivity. }
  unfold ret. simpl. now rewrite !insert_insert_eq.
Qed.

(** X1. A [CodeChecker] that has just been built has an empty registry:
    whatever name is asked for, [run_check] raises [ValueError] naming it,
    nothing is looked up, run or printed, and the heap holds the new
    checker and is otherwise as before. *)
Theorem new_checker_knows_no_name :
  forall (env : Env) (st : State) (verbose optional : Val)
         (source checker : string),
    let r := (code_checker <- CodeChecker_new verbose optional;;
              run_check code_checker source checker) env st in
    r.1 = Raise (ValueError ("Checker '" +:+ checker +:+ "' is not registered."))
    /\ trace r.2 = trace st
    /\ forall l o, heap st !! l = Some o -> heap r.2 !! l = Some o.
Proof.
  intros env st verbose optional source checker. cbv zeta.
  erewrite bind_ret by apply run_CodeChecker_new.
  erewrite unregistered_checker_raises;
    [| simpl; apply lookup_insert_eq | simpl; reflexivity | apply lookup_empty].
  repeat split. intros l o Hl. simpl.
  rewrite lookup_insert_ne; [exact Hl |].
  intros <-. rewrite fresh_not_allocated in Hl. discriminate.
Qed.

(** X2. Registering a name twice keeps the second class only: after
    [register_plugin(name, c1)] and [register_plugin(name, c2)] on a
    checker whose [verbose] is [v], nothing has been logged, and
    [run_check(source, name)] is the call of [check] on a new instance of
    [c2] built with [v]. *)
Theorem last_registration_wins :
  forall (env : Env) (st : State) (self : loc) (o : Obj)
         (d : gmap string class) (v : Val) (name source : string)
         (c1 c2 : class),
    heap st !! self = Some o ->
    obj_dict o !! "plugins" = Some (VDict d) ->
    obj_dict o !! "verbose" = Some v ->
    exists st2,
      (register_plugin self name c1;;; register_plugin self name c2) env st
      = (Ret tt, st2)
      /\ trace st2 = trace st
      /\ run_check self source name env st2
         = call_check (fresh (dom (heap st2))) source env
             (mkState (<[fresh (dom (heap st2)) := mkObj c2 (init_dict c2 v)]>
                         (heap st2))
                      (trace st2)).
Proof.
  intros env st self o d v name source c1 c2 Ho Hd Hv.
  eexists. split; [| split].
  - erewrite bind_ret by (eapply run_register_plugin; eassumption).
    eapply run_register_plugin.
    + simpl. apply lookup_insert_eq.
    + simpl. apply lookup_insert_eq.
  - reflexivity.
  - eapply registered_checker_dispatches.
    + simpl. apply lookup_insert_eq.
    + simpl. apply lookup_insert_eq.
    + simpl. rewrite !lookup_insert_ne by discriminate. exact Hv.
    + apply lookup_insert_eq.
Qed.

Lemma last_registration_wins_witness :
  let st := with_pylint (VBool false) VNone in
  exists st2,
    (register_plugin 0%nat "lint" PylintPlugin;;;
     register_plugin 0%nat "lint" Flake8Plugin) style_machine st
    = (Ret tt, st2)
    /\ trace st2 = trace st
    /\ run_check 0%nat "proj" "lint" style_machine st2
       = call_check (fresh (dom (heap st2))) "proj" style_machine
           (mkState (<[fresh (dom (heap st2)) :=
                         mkObj Flake8Plugin (init_dict Flake8Plugin (VBool false))]>
                       (heap st2))
                    (trace st2)).
Proof.
  intros st.
  apply (last_registration_wins style_machine st 0%nat
           (checker_object (VBool false) VNone)
           (<["pylint" := PylintPlugin]> ∅) (VBool false) "lint" "proj"
           PylintPlugin Flake8Plugin); reflexivity.
Defined.

(** X3. [register_plugin(name, cls)] changes one entry of one attribute:
    it returns, logs nothing, leaves every other object alone, keeps the
    class and every attribute of the checker other than [plugins], maps
    [name] to [cls] and leaves every other name of the registry as it
    was. *)
Theorem registration_touches_one_entry :
  forall (env : Env) (st : State) (self : loc) (o : Obj)
         (d : gmap string class) (name : string) (cls : class),
    heap st !! self = Some o ->
    obj_dict o !! "plugins" = Some (VDict d) ->
    let r := register_plugin self name cls env st in
    r.1 = Ret tt
    /\ trace r.2 = trace st
    /\ (forall l, l <> self -> heap r.2 !! l = heap st !! l)
    /\ exists o' d',
         heap r.2 !! self = Some o'
         /\ obj_class o' = obj_class o
         /\ (forall a, a <> "plugins" -> obj_dict o' !! a = obj_dict o !! a)
         /\ obj_dict o' !! "plugins" = Some (VDict d')
         /\ d' !! name = Some cls
         /\ (forall n, n <> name -> d' !! n = d !! n).
Proof.
  intros env st self o d name cls Ho Hd. cbv zeta.
  rewrite (run_register_plugin self name cls env st o d Ho Hd). simpl.
  split; [reflexivity |]. split; [reflexivity |]. split.
  - intros l Hl. now rewrite lookup_insert_ne.
  - eexists _, _. split; [apply lookup_insert_eq |]. simpl.
    split; [reflexivity |]. split.
    + intros a Ha. now rewrite lookup_insert_ne.
    + split; [apply lookup_insert_eq |]. split; [apply lookup_insert_eq |].
      intros n Hn. now rewrite lookup_insert_ne.
Qed.

Lemma registration_touches_one_entry_witness :
  let st := with_pylint (VBool true) (VFloat f7_5) in
  let r := register_plugin 0%nat "flake8" Flake8Plugin bare_machine st in
  r.1 = Ret tt
  /\ trace r.2 = trace st
  /\ (forall l, l <> 0%nat -> heap r.2 !! l = heap st !! l)
  /\ exists o' d',
       heap r.2 !! 0%nat = Some o'
       /\ obj_class o' = CodeChecker
       /\ (forall a, a <> "plugins"
                     -> obj_dict o' !! a
                        = obj_dict (checker_object (VBool true) (VFloat f7_5)) !! a)
       /\ obj_dict o' !! "plugins" = Some (VDict d')
       /\ d' !! "flake8" = Some Flake8Plugin
       /\ (forall n, n <> "flake8"
                     -> d' !! n = (<["pylint" := PylintPlugin]> ∅ : gmap string class) !! n).
Proof.
  intros st.
  apply (registration_touches_one_entry bare_machine st 0%nat
           (checker_object (VBool true) (VFloat f7_5))
           (<["pylint" := PylintPlugin]> ∅) "flake8" Flake8Plugin); reflexivity.
Defined.

Lemma run_CodeChecker_init l verbose optional env st o :
  heap st !! l = Some o ->
  CodeChecker_init l verbose optional env st
  = (Ret tt,
     mkState (<[l := mkObj (obj_class o)
                       (<["optional" := optional]>
                          (<["verbose" := verbose]>
                             (<["plugins" := VDict ∅]> (obj_dict o))))]>
                (heap st))
             (trace st)).
Proof.
  intros Ho. unfold CodeChecker_init.
  erewrite bind_ret by (apply run_setattr; exact Ho).
  erewrite run_setattr_twice by (simpl; apply lookup_insert_eq).
  simpl. now rewrite insert_insert_eq.
Qed.

(** What lines 221-224 leave on the heap: one new [CodeChecker] whose
    registry is [cli_registry]. *)
Lemma run_cli_checker args env st :
  exists o,
    cli_checker args env st
    = (Ret (fresh (dom (heap st))),
       mkState (<[fresh (dom (heap st)) := o]> (heap st)) (trace st))
    /\ obj_class o = CodeChecker
    /\ obj_dict o !! "plugins" = Some (VDict cli_registry)
    /\ obj_dict o !! "verbose" = Some (VBool (verbose args))
    /\ obj_dict o !! "optional"
       = Some (match scores_less_than args with
               | Some s => VStr s
               | None => VNone
               end).
Proof.
  eexists. split.
  - unfold cli_checker, alloc, bind at 1.
    erewrite bind_ret by (apply run_CodeChecker_init; simpl; apply lookup_insert_eq).
    erewrite bind_ret
      by (eapply run_register_plugin; simpl; [apply lookup_insert_eq | reflexivity]).
    erewrite bind_ret
      by (eapply run_register_plugin; simpl; [apply lookup_insert_eq | reflexivity]).
    erewrite bind_ret
      by (eapply run_register_plugin; simpl; [apply lookup_insert_eq | reflexivity]).
    unfold ret. simpl. rewrite !insert_insert_eq. reflexivity.
  - simpl. repeat split; reflexivity.
Qed.

(** X4. The checker that [main] builds knows exactly the three names
    [pylint], [flake8] and [pydocstyle]: its registry maps them to the
    three plugin classes, building it logs nothing, and [run_check] with
    any other name raises [ValueError] naming it and changes nothing. *)
Theorem cli_checker_knows_three_names :
  forall (env : Env) (st : State) (args : Args) (source : string),
  exists code_checker st1,
    cli_checker args env st = (Ret code_checker, st1)
    /\ trace st1 = trace st
    /\ get_plugins code_checker env st1 = (Ret cli_registry, st1)
    /\ forall name,
         name <> "pylint" -> name <> "flake8" -> name <> "pydocstyle" ->
         run_check code_checker source name env st1
         = (Raise (ValueError ("Checker '" +:+ name +:+ "' is not registered.")),
            st1).
Proof.
  intros env st args source.
  destruct (run_cli_checker args env st) as (o & E & Hc & Hp & Hv & Ho).
  eexists _, _. split; [exact E |]. split; [reflexivity |]. split.
  - eapply run_get_plugins; [simpl; apply lookup_insert_eq | exact Hp].
  - intros name H1 H2 H3.
    eapply unregistered_checker_raises;
      [simpl; apply lookup_insert_eq | exact Hp |].
    unfold cli_registry. now rewrite !lookup_insert_ne, lookup_empty.
Qed.

Lemma cli_checker_knows_three_names_witness :
  exists code_checker st1,
    cli_checker (mkArgs "pylint" false "proj" None) three_rated initial
    = (Ret code_checker, st1)
    /\ trace st1 = []
    /\ get_plugins code_checker three_rated st1 = (Ret cli_registry, st1)
    /\ run_check code_checker "proj" "mypy" three_rated st1
       = (Raise (ValueError "Checker 'mypy' is not registered."), st1).
Proof.
  destruct (cli_checker_knows_three_names three_rated initial
              (mkArgs "pylint" false "proj" None) "proj")
    as (cc & st1 & E & Ht & Hg & Hn).
  exists cc, st1. split; [exact E |]. split; [exact Ht |]. split; [exact Hg |].
  apply Hn; discriminate.
Defined.

End Registry.

(* ===================================================================== *)
(** * The command line front-end *)
(* ===================================================================== *)

Module MainFacts.
Import Py PyFloat Text Regex Builtins CodeCheckerPy Samples Calls Reasoning
       Steps Immutability Dispatch Unavailable Passthrough Registry.
Open Scope py_scope.
Local Open Scope list_scope.

Lemma run_try_except_caught {A} (m : M A) catches h env st e st' r :
  m env st = (Raise e, st') -> catches e = true -> h e env st' = r ->
  try_except m catches h env st = r.
Proof. intros H C <-. unfold try_except. now rewrite H, C. Qed.



Lemma pylint_unavailable self source env st :
  found (which env "pylint") = false ->
  PylintPlugin_check self source env st
  = (Raise (EnvironmentError "pylint is not available in the system's PATH"),
     log st [Which "pylint"]).
Proof.
  intros H. unfold PylintPlugin_check.
  erewrite bind_ret by apply run_which. now rewrite H.
Qed.

(** From the state that lines 221-224 leave, [run_check] with a name of
    the registry is the call of [check] on a new instance of its class,
    built with the [verbose] of the command line. *)
Lemma run_check_from_cli args env st source name cls :
  cli_registry !! name = Some cls ->
  exists code_checker st1,
    cli_checker args env st = (Ret code_checker, st1)
    /\ trace st1 = trace st
    /\ run_check code_checker source name env st1
       = call_check (fresh (dom (heap st1))) source env
           (mkState (<[fresh (dom (heap st1)) :=
                         mkObj cls (init_dict cls (VBool (verbose args)))]>
                       (heap st1))
                    (trace st1)).
Proof.
  intros Hn.
  destruct (run_cli_checker args env st) as (o & E & Hc & Hp & Hv & Ho).
  eexists _, _. split; [exact E |]. split; [reflexivity |].
  eapply registered_checker_dispatches;
    [simpl; apply lookup_insert_eq | exact Hp | exact Hv | exact Hn].
Qed.

(** X5. When the chosen tool, [pylint] or [flake8], is not on the search
    path, [main] does not fail: it looks the tool up, prints
    [Error: <tool> is not available in the system's PATH], and returns. *)
Theorem main_reports_a_missing_tool :
  forall (env : Env) (st : State) (tool source : string) (verbose : bool)
         (scores_less_than : option string),
    tool = "pylint" \/ tool = "flake8" ->
    found (which env tool) = false ->
    let r := main (mkArgs tool verbose source scores_less_than) env st in
    r.1 = Ret tt
    /\ trace r.2
       = trace st
         ++ [Which tool;
             Print ("Error: " +:+ tool +:+ " is not available in the system's PATH")].
Proof.
  intros env st tool source verbose scores_less_than Htool Hf. cbv zeta.
  unfold main. cbn [CodeCheckerPy.source CodeCheckerPy.tool].
  destruct Htool as [-> | ->].
  - destruct (run_check_from_cli (mkArgs "pylint" verbose source scores_less_than)
                env st source "pylint" PylintPlugin eq_refl)
      as (cc & st1 & E & Ht & Hrun).
    erewrite bind_ret by exact E.
    erewrite bind_ret.
    2:{ eapply run_try_except_caught.
        - eapply bind_raise. rewrite Hrun.
          erewrite call_check_reaches by (simpl; apply lookup_insert_eq).
          cbn [obj_class]. now apply pylint_unavailable.
        - reflexivity.
        - cbn [exn_message]. erewrite bind_ret by apply run_print.
          reflexivity. }
    cbv beta iota. unfold ret. cbn [fst snd]. split; [reflexivity |].
    rewrite log_log, trace_log. cbn [trace]. now rewrite Ht.
  - destruct (run_check_from_cli (mkArgs "flake8" verbose source scores_less_than)
                env st source "flake8" Flake8Plugin eq_refl)
      as (cc & st1 & E & Ht & Hrun).
    erewrite bind_ret by exact E.
    erewrite bind_ret.
    2:{ eapply run_try_except_caught.
        - eapply bind_raise. rewrite Hrun.
          erewrite call_check_reaches by (simpl; apply lookup_insert_eq).
          cbn [obj_class]. now apply passthrough_unavailable.
        - reflexivity.
        - cbn [exn_message]. erewrite bind_ret by apply run_print.
          reflexivity. }
    cbv beta iota. unfold ret. cbn [fst snd]. split; [reflexivity |].
    rewrite log_log, trace_log. cbn [trace]. now rewrite Ht.
Qed.

Lemma main_reports_a_missing_tool_witness :
  found (which bare_machine "flake8") = false
  /\ (main (mkArgs "flake8" true "proj" None) bare_machine initial).1 = Ret tt
  /\ trace (main (mkArgs "flake8" true "proj" None) bare_machine initial).2
     = [Which "flake8";
        Print "Error: flake8 is not available in the system's PATH"].
Proof.
  split; [reflexivity |].
  apply (main_reports_a_missing_tool bare_machine initial "flake8" "proj" true None).
  - now right.
  - reflexivity.
Defined.





End MainFacts.

(* ===================================================================== *)
(** * More on the quality scorer *)
(* ===================================================================== *)

Module Scorer.
Import Py PyFloat Text Regex Builtins CodeCheckerPy Samples Calls Reasoning
       Steps Immutability Dispatch SourceFiles Fallback Scored WithOptional.
Open Scope py_scope.
Local Open Scope list_scope.

(** X8. For a directory, [get_source_files] asks [isdir], walks the tree
    once, and returns exactly the joined paths of the files whose name
    ends in [.py]: a path is in the result if and only if it is
    [os.path.join(root, file)] for a triple [(root, dirs, files)] of the
    walk and a [file] of it that ends in [.py]. *)
Theorem directory_listing_is_the_py_files_of_the_walk :
  forall (env : Env) (st : State) (self : loc) (source : string),
    isdir env source = true ->
    exists files,
      get_source_files self source env st
      = (Ret files, log st [Isdir source; Walk source])
      /\ forall f,
           In f files
           <-> exists root dirs names file,
                 In (root, dirs, names) (walk env source)
                 /\ In file names
                 /\ endswith file ".py" = true
                 /\ f = os_path_join root file.
Proof.
  intros env st self source Hd.
  exists (py_files_of_walk (walk env source)). split.
  - rewrite run_get_source_files. unfold source_files_of. now rewrite Hd.
  - intros f. unfold py_files_of_walk. rewrite in_flat_map. split.
    + intros ([[root dirs] names] & Hw & Hf).
      apply in_map_iff in Hf as (file & <- & Hfile).
      apply filter_In in Hfile as [Hin Hpy].
      now exists root, dirs, names, file.
    + intros (root & dirs & names & file & Hw & Hin & Hpy & ->).
      exists (root, dirs, names). split; [exact Hw |].
      apply in_map. apply filter_In. now split.
Qed.

Lemma directory_listing_is_the_py_files_of_the_walk_witness :
  let st := pylint_instance (VBool false) (VFloat fm1_0) None in
  isdir three_rated "proj" = true
  /\ exists files,
       get_source_files 0%nat "proj" three_rated st
       = (Ret files, log st [Isdir "proj"; Walk "proj"])
       /\ forall f,
            In f files
            <-> exists root dirs names file,
                  In (root, dirs, names) (walk three_rated "proj")
                  /\ In file names
                  /\ endswith file ".py" = true
                  /\ f = os_path_join root file.
Proof.
  intros st. split; [reflexivity |].
  apply (directory_listing_is_the_py_files_of_the_walk three_rated st 0%nat "proj").
  reflexivity.
Defined.

(** The walk of the sample project keeps the three modules and drops the
    text file. *)
Example sample_listing :
  source_files_of three_rated "proj" = ["proj/a.py"; "proj/b.py"; "proj/c.py"].
Proof. reflexivity. Qed.

(** ** Which sub-processes a check starts *)

Lemma runs_of_log st es :
  runs_of (trace (log st es)) = runs_of (trace st) ++ runs_of es.
Proof. now rewrite trace_log, runs_of_app. Qed.

Lemma same_runs_report_score self filename lv res env st :
  runs_of (trace (report_score self filename lv res env st).2)
  = runs_of (trace st).
Proof.
  apply (preserves_report_score same_runs same_runs_refl same_runs_trans
           same_runs_print).
Qed.

Lemma same_runs_check_finish lv env st :
  runs_of (trace (check_finish lv env st).2) = runs_of (trace st).
Proof.
  apply (preserves_check_finish same_runs same_runs_refl same_runs_trans).
Qed.

(** The loop runs pylint on the files in order and stops somewhere. *)
Lemma loop_runs_a_prefix self env files :
  forall lv st,
  exists k,
    runs_of (trace (for_each (check_file self) files lv env st).2)
    = runs_of (trace st) ++ map pylint_on (take k files).
Proof.
  induction files as [|f files IH]; intros lv st.
  - exists 0%nat. simpl. now rewrite app_nil_r.
  - cbn [for_each]. unfold check_file at 1. rewrite bind_assoc_at.
    destruct (run_error env ["pylint"; f]) as [e|] eqn:He.
    { exists 1%nat.
      erewrite bind_raise by (apply run_subprocess_raises; exact He).
      cbn [snd take map]. now rewrite runs_of_log. }
    erewrite bind_ret by (apply run_subprocess; exact He).
    pose proof (same_runs_report_score self f lv (run env ["pylint"; f]) env
                  (log st [Run ["pylint"; f]])) as P.
    rewrite runs_of_log in P. cbn [runs_of] in P.
    unfold bind.
    destruct (report_score self f lv (run env ["pylint"; f]) env
                (log st [Run ["pylint"; f]])) as [[[lv'|r]|e] st2];
      cbn [snd] in P.
    + destruct (IH lv' st2) as [k Hk]. exists (S k).
      rewrite Hk, P, <- app_assoc. reflexivity.
    + exists 1%nat. cbn [ret snd take map]. rewrite P. reflexivity.
    + exists 1%nat. cbn [snd take map]. rewrite P. reflexivity.
Qed.

(** What [check] logs before the loop starts no sub-process. *)
Ltac quiet_prefix v env source :=
  rewrite runs_of_log;
  match goal with
  | |- (_ ++ runs_of ?es) ++ _ = _ =>
      let E := fresh "E" in
      assert (E : runs_of es = [])
        by (destruct (truthy v), (isdir env source); reflexivity);
      rewrite E, app_nil_r; reflexivity
  end.

(** X9. Whatever the instance and the environment, the only calls of
    [subprocess.run] that [PylintPlugin.check] makes are [pylint <file>]
    for the files that [get_source_files] returned, each at most once, in
    that order, and without skipping any before the one it stops at: the
    commands run are those of an initial part of the list. *)
Theorem check_runs_pylint_on_an_initial_part :
  forall (env : Env) (st : State) (self : loc) (source : string),
  exists k,
    runs_of (trace (PylintPlugin_check self source env st).2)
    = runs_of (trace st)
      ++ map pylint_on (take k (source_files_of env source)).
Proof.
  intros env st self source.
  remember (PylintPlugin_check self source env st) as r eqn:Hr.
  unfold PylintPlugin_check in Hr.
  erewrite bind_ret in Hr by apply run_which.
  destruct (negb (found (which env "pylint"))).
  { exists 0%nat. subst r. cbn [raise snd take map].
    rewrite runs_of_log. cbn [runs_of]. reflexivity. }
  unfold bind at 1 in Hr.
  pose proof (heap_getattr self "verbose" env (log st [Which "pylint"])) as Hg.
  destruct (getattr self "verbose" env (log st [Which "pylint"]))
    as [[v|e] st1]; cbn [snd] in Hg; subst st1.
  2:{ exists 0%nat. subst r. cbn [snd take map].
      rewrite runs_of_log. cbn [runs_of]. reflexivity. }
  erewrite bind_ret in Hr by apply run_when_print.
  erewrite bind_ret in Hr by apply run_get_source_files.
  rewrite !log_log in Hr. unfold bind in Hr.
  match type of Hr with
  | context [for_each _ _ ?lv env ?s] =>
      destruct (loop_runs_a_prefix self env (source_files_of env source) lv s)
        as [k Hk]
  end.
  exists k.
  match type of Hr with
  | context [for_each ?b ?fs ?lv env ?s] =>
      destruct (for_each b fs lv env s) as [[[lv'|v']|e] st2]
  end; cbn [snd] in Hk; subst r.
  - rewrite same_runs_check_finish, Hk. quiet_prefix v env source.
  - cbn [ret snd]. rewrite Hk. quiet_prefix v env source.
  - cbn [snd]. rewrite Hk. quiet_prefix v env source.
Qed.

(** ** The scorer behind the registry *)







End Scorer.

(* ===================================================================== *)
(** * The quality scorer: when a run is given up *)
(* ===================================================================== *)

Module Floor.
Import Py PyFloat Text Regex Builtins CodeCheckerPy Samples Calls Reasoning Steps
       Immutability SourceFiles Fallback Scored.
Open Scope py_scope.
Local Open Scope list_scope.

(** ** The scores that [float] reads are no negative numbers *)

Lemma round_sign_clear q e l :
  sign_clear (binary_round_aux prec emax false q e l) = true.
Proof.
  unfold binary_round_aux.
  destruct (shr_fexp prec emax q e l) as [mrs e'].
  destruct (shr_fexp prec emax _ e' loc_Exact) as [mrs' e''].
  destruct (shr_m mrs'); [reflexivity | | reflexivity].
  destruct (e'' <=? emax - prec)%Z; reflexivity.
Qed.

Lemma of_decimal_sign_clear m k : sign_clear (of_decimal m k) = true.
Proof.
  unfold of_decimal. destruct m; try reflexivity.
  destruct (SFdiv_core_binary _ _ _ _ _ _) as [[q e] l].
  apply round_sign_clear.
Qed.

Lemma parse_frac_sign_clear s :
  forall m k seen x, parse_frac m k seen s = Some x -> sign_clear x = true.
Proof.
  induction s as [|c s IH]; intros m k seen x H; simpl in H.
  - destruct seen; [| discriminate]. injection H as <-.
    apply of_decimal_sign_clear.
  - destruct (digit_of c); [| discriminate]. eapply IH, H.
Qed.

Lemma parse_int_sign_clear s :
  forall m seen x, parse_int m seen s = Some x -> sign_clear x = true.
Proof.
  induction s as [|c s IH]; intros m seen x H; simpl in H.
  - destruct seen; [| discriminate]. injection H as <-.
    apply of_decimal_sign_clear.
  - destruct (digit_of c); [eapply IH, H |].
    destruct (Ascii.eqb c "."); [| discriminate].
    eapply parse_frac_sign_clear, H.
Qed.

Lemma score_sign_clear g x : of_string g = Some x -> sign_clear x = true.
Proof. apply parse_int_sign_clear. Qed.

Lemma not_below_a_negative x limit :
  sign_clear x = true -> sign_clear limit = false -> flt x limit = false.
Proof.
  destruct x as [[|]|[|]| |[|] mx ex], limit as [[|]|[|]| |[|] ml el];
    simpl; intros; try discriminate; reflexivity.
Qed.

(** ** Where [check] returns from inside the loop *)

Lemma getattr_cases l name env st :
  (exists v, getattr l name env st = (Ret v, st))
  \/ (exists e, getattr l name env st = (Raise e, st)).
Proof.
  unfold getattr.
  destruct (heap st !! l) as [o|]; [| right; eauto].
  destruct (obj_dict o !! name); [left; eauto |].
  destruct (class_attr (obj_class o) name); [left | right]; eauto.
Qed.

Ltac read_attr self name :=
  match goal with
  | |- context [bind (getattr self name) ?k ?env ?st] =>
      let v := fresh "v" in
      let e := fresh "e" in
      let E := fresh "E" in
      destruct (getattr_cases self name env st) as [[v E] | [e E]];
      [ erewrite bind_ret by exact E
      | erewrite bind_raise by exact E; discriminate ]
  end.

(** The body of the loop leaves [check] in one case only: the file has a
    rating line, [float] reads its score, and the score is below the
    floor; what is returned then is [None]. *)
Lemma report_score_stops self filename lv res env st o limit r :
  heap st !! self = Some o ->
  obj_dict o !! "scorelimit" = Some (VFloat limit) ->
  (report_score self filename lv res env st).1 = Ret (inr r) ->
  r = None
  /\ exists g x,
       re_search (stdout res) = Some g /\ of_string g = Some x
       /\ flt x limit = true.
Proof.
  intros Ho Hl. unfold report_score.
  read_attr self "verbose".
  erewrite bind_ret by apply run_verbose_streams.
  destruct (re_search (stdout res)) as [g|] eqn:Hg; cbv zeta;
    [| discriminate].
  rewrite (score_is_not_the_placeholder _ _ Hg). cbn [negb].
  read_attr self "optional".
  destruct (truthy v0 && is_float v0).
  - unfold float_of_str. destruct (of_string g) as [x|]; [| discriminate].
    erewrite bind_ret by apply run_ret.
    read_attr self "optional".
    destruct v1; try discriminate. cbn [float_of_val].
    erewrite bind_ret by apply run_ret.
    erewrite bind_ret by apply run_when_print.
    discriminate.
  - erewrite bind_ret by apply run_print.
    unfold float_of_str. destruct (of_string g) as [x|] eqn:Hx; [| discriminate].
    erewrite !bind_ret by apply run_ret.
    erewrite bind_ret by (eapply run_getattr; [exact Ho | exact Hl]).
    cbn [lt_with_str].
    erewrite bind_ret.
    2:{ erewrite bind_ret by apply run_ask. apply run_ret. }
    cbv beta iota.
    destruct (flt x limit) eqn:Hlow.
    + erewrite bind_ret by apply run_print.
      intros [= <-]. split; [reflexivity |]. exists g, x. auto.
    + discriminate.
Qed.

Lemma heap_check_file self filename lv env st :
  heap (check_file self filename lv env st).2 = heap st.
Proof.
  apply (preserves_check_file same_heap same_heap_refl same_heap_trans
           same_heap_print same_heap_emit).
Qed.

Lemma loop_stops self env o limit files :
  obj_dict o !! "scorelimit" = Some (VFloat limit) ->
  forall lv st r,
    heap st !! self = Some o ->
    (for_each (check_file self) files lv env st).1 = Ret (inr r) ->
    r = None /\ Exists (below_floor env limit) files.
Proof.
  intros Hl. induction files as [|f files IH]; intros lv st r Ho H.
  - discriminate.
  - cbn [for_each] in H. unfold bind at 1 in H.
    pose proof (heap_check_file self f lv env st) as Hh.
    destruct (check_file self f lv env st) as [[[lv'|r']|e] st1] eqn:E;
      simpl in Hh.
    + rewrite <- Hh in Ho.
      destruct (IH lv' st1 r Ho H) as [-> Hex]. split; [reflexivity |].
      now apply Exists_cons_tl.
    + injection H as ->.
      unfold check_file in E.
      destruct (run_error env ["pylint"; f]) as [e|] eqn:He.
      { erewrite bind_raise in E by (apply run_subprocess_raises; exact He).
        discriminate. }
      erewrite bind_ret in E by (apply run_subprocess; exact He).
      destruct (report_score_stops self f lv (run env ["pylint"; f]) env
                  (log st [Run ["pylint"; f]]) o limit r Ho Hl) as [-> Hex].
      { now rewrite E. }
      split; [reflexivity |]. apply Exists_cons_hd. exact Hex.
    + discriminate.
Qed.

Lemma check_finish_is_no_none lv env st :
  (check_finish lv env st).1 <> Ret None.
Proof.
  unfold check_finish.
  destruct (negb (bool_decide (scores lv = []))).
  - unfold bind at 1.
    destruct (map_M float_of_str (scores lv) env st) as [[fs|e] st1];
      [| discriminate].
    erewrite bind_ret by apply run_ask. cbv zeta.
    destruct (bool_decide (length (scores lv) = 0%nat)); discriminate.
  - destruct (result lv); discriminate.
Qed.

Lemma check_none_below self source env st o limit :
  heap st !! self = Some o ->
  obj_dict o !! "scorelimit" = Some (VFloat limit) ->
  (PylintPlugin_check self source env st).1 = Ret None ->
  Exists (below_floor env limit) (source_files_of env source).
Proof.
  intros Ho Hl. unfold PylintPlugin_check.
  erewrite bind_ret by apply run_which.
  destruct (negb (found (which env "pylint"))); [discriminate |].
  read_attr self "verbose".
  erewrite bind_ret by apply run_when_print.
  erewrite bind_ret by apply run_get_source_files.
  unfold bind at 1.
  match goal with
  | |- context [for_each ?b ?fs ?lv env ?s] =>
      pose proof (loop_stops self env o limit fs Hl lv s) as Hloop;
      destruct (for_each b fs lv env s) as [[[lv'|r]|e] st1]
  end.
  - intros H. now apply check_finish_is_no_none in H.
  - intros [= ->]. apply (Hloop None); [exact Ho | reflexivity].
  - discriminate.
Qed.

(** X12. [check] returns [None] for one reason only: whenever it does, one
    of the enumerated files has a rating line whose score [float] reads
    as a number below the instance's [scorelimit]. *)
Theorem none_means_a_score_below_the_floor :
  forall (env : Env) (st : State) (self : loc) (o : Obj) (limit : float)
         (source : string),
    heap st !! self = Some o ->
    obj_dict o !! "scorelimit" = Some (VFloat limit) ->
    (PylintPlugin_check self source env st).1 = Ret None ->
    Exists (below_floor env limit) (source_files_of env source).
Proof.
  intros env st self o limit source. apply check_none_below.
Qed.

Lemma none_means_a_score_below_the_floor_witness :
  let st := pylint_instance (VBool false) (VFloat f6_0) (Some VNone) in
  (PylintPlugin_check 0%nat "proj" one_poor st).1 = Ret None
  /\ Exists (below_floor one_poor f6_0) (source_files_of one_poor "proj").
Proof.
  intros st.
  assert (H : (PylintPlugin_check 0%nat "proj" one_poor st).1 = Ret None).
  { vm_compute. reflexivity. }
  split; [exact H |].
  apply (none_means_a_score_below_the_floor one_poor st 0%nat
           (mkObj PylintPlugin
              (<["optional" := VNone]>
                 (<["scorelimit" := VFloat f6_0]>
                    (init_dict PylintPlugin (VBool false)))))
           f6_0 "proj"); [reflexivity | reflexivity | exact H].
Defined.

(** X13. A floor that is a negative number, as the [-1.0] that the
    constructor sets, gives up no run: [check] on such an instance never
    returns [None], whatever pylint prints and whatever the other
    attributes of the instance are. *)
Theorem negative_floor_never_fails :
  forall (env : Env) (st : State) (self : loc) (o : Obj) (limit : float)
         (source : string),
    heap st !! self = Some o ->
    obj_dict o !! "scorelimit" = Some (VFloat limit) ->
    sign_clear limit = false ->
    (PylintPlugin_check self source env st).1 <> Ret None.
Proof.
  intros env st self o limit source Ho Hl Hneg H.
  pose proof (check_none_below self source env st o limit Ho Hl H) as Hex.
  apply Exists_exists in Hex as (f & _ & g & x & _ & Hx & Hlow).
  rewrite (not_below_a_negative x limit) in Hlow; [discriminate | | exact Hneg].
  exact (score_sign_clear g x Hx).
Qed.

Lemma negative_floor_never_fails_witness :
  let st := pylint_instance (VBool false) (VFloat fm1_0) (Some VNone) in
  sign_clear fm1_0 = false
  /\ (PylintPlugin_check 0%nat "proj" three_mixed st).1 <> Ret None.
Proof.
  intros st. split; [reflexivity |].
  apply (negative_floor_never_fails three_mixed st 0%nat
           (mkObj PylintPlugin
              (<["optional" := VNone]>
                 (<["scorelimit" := VFloat fm1_0]>
                    (init_dict PylintPlugin (VBool false)))))
           fm1_0 "proj"); reflexivity.
Defined.

End Floor.

(* ===================================================================== *)
(** * The quality scorer: the two modes of lines 115-127 *)
(* ===================================================================== *)

(** The statements below are about a [PylintPlugin] instance that carries
    an attribute [optional], which the class itself never sets. *)

Module Modes.
Import Py PyFloat Text Regex Builtins CodeCheckerPy Samples Calls Reasoning Steps
       SourceFiles Fallback Scored WithOptional.
Open Scope py_scope.
Local Open Scope list_scope.












End Modes.

(* ===================================================================== *)
(** * The rating line: what the pattern does not find *)
(* ===================================================================== *)

Module Unrated.
Import Py PyFloat Text Regex Builtins CodeCheckerPy Samples Calls Reasoning
       RegexFacts.
Local Open Scope list_scope.

(** A match starts with the capital letter of the fixed text. *)
Lemma match_at_starts_with_Y (c : ascii) (s : string) :
  Ascii.eqb "Y" c = false -> match_at (String c s) = None.
Proof.
  intros H. unfold match_at, rated_prefix. cbn [strip_prefix]. now rewrite H.
Qed.

Lemma re_search_skips (a b : string) :
  lacks "Y" a = true -> re_search (a +:+ b) = re_search b.
Proof.
  induction a as [|c a IH]; intros H.
  - now rewrite app_nil.
  - cbn [lacks] in H. apply andb_prop in H as [Hc Ha].
    apply negb_true_iff in Hc.
    rewrite app_cons, re_search_cons, match_at_starts_with_Y by exact Hc.
    now apply IH.
Qed.

Lemma re_search_lacks (s : string) : lacks "Y" s = true -> re_search s = None.
Proof.
  intros H.
  assert (E : s +:+ "" = s).
  { clear H. induction s as [|c s IH]; [reflexivity |].
    rewrite app_cons. now f_equal. }
  rewrite <- E, re_search_skips by exact H. reflexivity.
Qed.

(** X18. The scorer treats a file as unrated exactly when pylint's output
    holds no rating line: [re.search] finds nothing if and only if the
    text contains, for no non-empty run [score] of digits and points,
    the words of the rating line followed by [score] and [/10]. *)
Theorem no_match_iff_no_rating_line :
  forall text : string,
    re_search text = None <-> (forall score, ~ contains_rating text score).
Proof.
  intros text. split.
  - intros Hn score Hc. destruct (re_search_complete _ _ Hc) as [g Hg].
    congruence.
  - apply re_search_none.
Qed.

(** X19. A rating has to begin with a digit or a point right after the
    words of the rating line.  When another character follows them, as
    the minus sign of a negative rating does, and the letter [Y] occurs
    nowhere else in the text, the pattern finds nothing, and the file
    counts as unrated. *)
Theorem rating_must_start_with_a_digit_or_point :
  forall (before after : string) (c : ascii),
    lacks "Y" before = true ->
    lacks "Y" (String c after) = true ->
    score_char c = false ->
    re_search (before +:+ rated_prefix +:+ String c after) = None.
Proof.
  intros before after c Hb Ha Hc.
  rewrite re_search_skips by exact Hb.
  assert (Hm : match_at (rated_prefix +:+ String c after) = None).
  { unfold match_at. rewrite strip_prefix_app. cbn [rated_group].
    now rewrite Hc. }
  unfold rated_prefix in *. rewrite app_cons in *.
  rewrite re_search_cons, Hm.
  change (re_search ("our code has been rated at " +:+ String c after) = None).
  rewrite re_search_skips by reflexivity.
  now apply re_search_lacks.
Qed.

Lemma rating_must_start_with_a_digit_or_point_witness :
  negative_report
  = ("************* Module demo" +:+ nl
     +:+ "demo.py:1:0: E0602: Undefined variable 'x' (undefined-variable)" +:+ nl)
    +:+ rated_prefix +:+ String "-" ("2.50/10" +:+ nl)
  /\ re_search negative_report = None.
Proof.
  assert (E : negative_report
              = ("************* Module demo" +:+ nl
                 +:+ "demo.py:1:0: E0602: Undefined variable 'x' (undefined-variable)"
                 +:+ nl)
                +:+ rated_prefix +:+ String "-" ("2.50/10" +:+ nl))
    by reflexivity.
  split; [exact E |]. rewrite E.
  apply (rating_must_start_with_a_digit_or_point
           ("************* Module demo" +:+ nl
            +:+ "demo.py:1:0: E0602: Undefined variable 'x' (undefined-variable)"
            +:+ nl)
           ("2.50/10" +:+ nl) "-"); reflexivity.
Defined.

End Unrated.
